(** * SpaceX launch records dashboard: the filter/aggregate callbacks

    A shallow embedding of [spacex_dash_app.py].  The program keeps one
    global pandas DataFrame, [spacex_df], and registers three Dash callbacks
    over it: [update_pie_chart], [update_scatter_chart] and
    [update_insight_charts].  The last one writes a column into the global
    frame, so every callback is modelled as a computation over the frame:
    it returns a figure (or raises) and leaves a frame behind.

    The DataFrame is a finite map from column names to columns.  The pandas
    and plotly calls the callbacks make ([df[col]], boolean indexing,
    [groupby], [pd.cut], [px.pie], ...) are modelled by the functions of
    the first half of the file, at the dtypes the program uses them at. *)

From Stdlib Require Import QArith Lqa.
From stdpp Require Import gmap strings list fin_maps sorting.

Local Close Scope Q_scope.
Local Open Scope string_scope.

(** ** Columns and frames *)

(** A column with its dtype.  [None] in a float column is NaN, [None] in a
    categorical column is the missing category. *)
Inductive Series :=
| StrCol (l : list string)
| IntCol (l : list Z)
| NumCol (l : list (option Q))
| CatCol (categories : list string) (l : list (option string)).

Abbreviation DataFrame := (gmap string Series).

(** One line of the CSV file, at the four columns the program reads. *)
Record LaunchRecord := mkLaunch {
  launch_site : string;
  payload_mass : Q;
  outcome : Z;
  booster_category : string
}.

(** [spacex_df = pd.read_csv(...)]: the frame holding the records [rows];
    [others] stands for the further columns of the file. *)
Definition read_csv (rows : list LaunchRecord) (others : DataFrame) : DataFrame :=
  <["Launch Site" := StrCol (launch_site <$> rows)]>
  (<["Payload Mass (kg)" := NumCol ((λ r, Some (payload_mass r)) <$> rows)]>
  (<["class" := IntCol (outcome <$> rows)]>
  (<["Booster Version Category" := StrCol (booster_category <$> rows)]> others))).

(** ** Decidable comparisons on rationals *)

Global Instance Qle_decision (x y : Q) : Decision (x <= y)%Q.
Proof.
  destruct (Qle_bool x y) eqn:E.
  - left. by apply Qle_bool_iff.
  - right. intros H. apply Qle_bool_iff in H. congruence.
Defined.

Global Instance Qlt_decision (x y : Q) : Decision (x < y)%Q.
Proof.
  destruct (Qle_bool y x) eqn:E.
  - right. apply Qle_bool_iff in E. by apply Qle_not_lt.
  - left. apply Qnot_le_lt. intros H. apply Qle_bool_iff in H. congruence.
Defined.

(** ** Operations on columns *)

(** Boolean indexing: the entries at which the mask is [true]. *)
Fixpoint select {A} (mask : list bool) (l : list A) : list A :=
  match mask, l with
  | b :: mask, x :: l => if b then x :: select mask l else select mask l
  | _, _ => []
  end.

Definition series_select (mask : list bool) (s : Series) : Series :=
  match s with
  | StrCol l => StrCol (select mask l)
  | IntCol l => IntCol (select mask l)
  | NumCol l => NumCol (select mask l)
  | CatCol c l => CatCol c (select mask l)
  end.

(** [df[mask]] *)
Definition boolean_index (df : DataFrame) (mask : list bool) : DataFrame :=
  series_select mask <$> df.

(** The numeric view of a column, as the comparisons, [mean] and [pd.cut]
    take it; a string or categorical column has none (TypeError). *)
Definition as_float (s : Series) : option (list (option Q)) :=
  match s with
  | IntCol l => Some ((λ z, Some (inject_Z z)) <$> l)
  | NumCol l => Some l
  | _ => None
  end.

(** [s >= q] and [s <= q]; a comparison with NaN is false. *)
Definition series_ge (s : Series) (q : Q) : option (list bool) :=
  xs ← as_float s;
  Some ((λ o, match o with
              | Some x => bool_decide (q <= x)%Q
              | None => false
              end) <$> (xs : list (option Q))).

Definition series_le (s : Series) (q : Q) : option (list bool) :=
  xs ← as_float s;
  Some ((λ o, match o with
              | Some x => bool_decide (x <= q)%Q
              | None => false
              end) <$> (xs : list (option Q))).

(** [s == v] for a string [v]: never raises, a number is not a string. *)
Definition series_eq_str (s : Series) (v : string) : list bool :=
  match s with
  | StrCol l => (λ x, bool_decide (x = v)) <$> l
  | CatCol _ l => (λ o, bool_decide (o = Some v)) <$> l
  | IntCol l => (λ _, false) <$> l
  | NumCol l => (λ _, false) <$> l
  end.

(** [s == n] for an integer [n]. *)
Definition series_eq_int (s : Series) (n : Z) : list bool :=
  match s with
  | IntCol l => (λ z, bool_decide (z = n)) <$> l
  | NumCol l => (λ o, match o with
                      | Some x => Qeq_bool x (inject_Z n)
                      | None => false
                      end) <$> l
  | StrCol l => (λ _, false) <$> l
  | CatCol _ l => (λ _, false) <$> l
  end.

(** [m1 & m2] *)
Definition mask_and (m1 m2 : list bool) : list bool := zip_with andb m1 m2.

(** ** Aggregates *)

Definition Qsum (l : list Q) : Q := foldr Qplus 0%Q l.

(** The mean of a list of numbers; NaN for the empty list. *)
Definition mean (l : list Q) : option Q :=
  match l with
  | [] => None
  | _ => Some (Qsum l / inject_Z (Z.of_nat (length l)))%Q
  end.

(** [s.count()]: the number of entries that are not missing. *)
Definition series_count (s : Series) : Z :=
  match s with
  | StrCol l => Z.of_nat (length l)
  | IntCol l => Z.of_nat (length l)
  | NumCol l => Z.of_nat (length (omap id l))
  | CatCol _ l => Z.of_nat (length (omap id l))
  end.

(** The mean of the entries that are not missing. *)
Definition nanmean (l : list (option Q)) : option Q := mean (omap id l).

(** ** [pd.cut] *)

(** [bins.searchsorted(x, side='left')] on ascending [bins]: the number of
    edges strictly below [x]. *)
Definition searchsorted_left (bins : list Q) (x : Q) : nat :=
  length (filter (λ b, (b < x)%Q) bins).

(** The label of one value, with [right=True] and [include_lowest=False]
    (the defaults): a value at index 0 or past the last edge has none. *)
Definition cut_label (bins : list Q) (labels : list string) (x : option Q)
  : option string :=
  match x with
  | None => None
  | Some x =>
      let ids := searchsorted_left bins x in
      if bool_decide (ids = 0%nat ∨ ids = length bins) then None
      else labels !! (ids - 1)%nat
  end.

Fixpoint increasing (bins : list Q) : bool :=
  match bins with
  | a :: (b :: _) as rest => bool_decide (a < b)%Q && increasing rest
  | _ => true
  end.

(** [pd.cut(s, bins=bins, labels=labels)]: raises unless the edges increase
    and there is one label per interval, all distinct. *)
Definition pd_cut (s : Series) (bins : list Q) (labels : list string)
  : option Series :=
  xs ← as_float s;
  if increasing bins
     && bool_decide (S (length labels) = length bins)
     && bool_decide (NoDup labels)
  then Some (CatCol labels (cut_label bins labels <$> xs))
  else None.

(** ** Figures *)

(** A plotly figure, as the columns it was given and its title. *)
Inductive Figure :=
| Pie (names : Series) (values : option Series) (title : string)
| Scatter (x y color : Series) (title : string)
| Bar (x y : Series) (title : string).

Definition px_pie (df : DataFrame) (names : string) (values : option string)
    (title : string) : option Figure :=
  n ← df !! names;
  match values with
  | None => Some (Pie n None title)
  | Some v => vs ← df !! v; Some (Pie n (Some vs) title)
  end.

Definition px_scatter (df : DataFrame) (x y color title : string)
  : option Figure :=
  xs ← df !! x; ys ← df !! y; cs ← df !! color;
  Some (Scatter xs ys cs title).

Definition px_bar (df : DataFrame) (x y title : string) : option Figure :=
  xs ← df !! x; ys ← df !! y;
  Some (Bar xs ys title).

(** What a pie chart shows.  plotly draws one slice per distinct label;
    its value is the sum of the [values] carried by that label, or the
    number of its occurrences when the figure was given no [values].  The
    program labels slices by strings and by integers, and gives integer
    values. *)
Inductive Label := LStr (s : string) | LInt (z : Z).

Global Instance Label_eq_dec : EqDecision Label.
Proof. solve_decision. Defined.

Definition series_labels (s : Series) : option (list Label) :=
  match s with
  | StrCol l => Some (LStr <$> l)
  | IntCol l => Some (LInt <$> l)
  | _ => None
  end.

Definition Zsum (l : list Z) : Z := foldr Z.add 0%Z l.

Definition pie_slices (f : Figure) : option (list (Label * Z)) :=
  match f with
  | Pie names values _ =>
      ls ← series_labels names;
      ws ← match values with
           | None => Some ((λ _, 1%Z) <$> (ls : list Label))
           | Some (IntCol v) => Some v
           | Some _ => None
           end;
      Some ((λ k, (k, Zsum (select ((λ x, bool_decide (x = k)) <$> (ls : list Label)) ws)))
              <$> remove_dups ls)
  | _ => None
  end.

(** ** Computations over the global frame *)

(** A callback runs against the global [spacex_df]: it returns a value or
    raises ([None]), and leaves the frame as it has made it by then. *)
Definition Callback (A : Type) : Type := DataFrame → option A * DataFrame.

Global Instance callback_ret : MRet Callback := λ A a df, (Some a, df).

Global Instance callback_bind : MBind Callback := λ A B f m df,
  match m df with
  | (Some a, df') => f a df'
  | (None, df') => (None, df')
  end.

(** Reading the global, writing one of its columns ([spacex_df[name] = s]),
    and running a call that may raise. *)
Definition read_global : Callback DataFrame := λ df, (Some df, df).

Definition setitem (name : string) (s : Series) : Callback unit :=
  λ df, (Some tt, <[name := s]> df).

Definition lift {A} (o : option A) : Callback A := λ df, (o, df).

(** [low, high = payload_range] *)
Definition unpack2 (payload_range : list Q) : option (Q * Q) :=
  match payload_range with
  | [low; high] => Some (low, high)
  | _ => None
  end.

(** ** [groupby] *)

(** A grouped frame: the keys of the groups, in the order of the result,
    and for every key the mask of its rows. *)
Record GroupBy := mkGroupBy {
  gb_frame : DataFrame;
  gb_key : string;
  gb_keys : Series;
  gb_masks : list (list bool)
}.

Section pandas_version.

(** The default of [groupby]'s [observed] argument, which the program
    leaves unset: [False] up to pandas 2 (a category without rows still
    gets a group), [True] from pandas 3. *)
Variable observed : bool.

(** [df.groupby(key)], with [sort=True] and [dropna=True]: the distinct keys
    in ascending order; for a categorical column, its categories in their
    own order.  The program groups by string and categorical columns;
    integer keys are handled alike, float keys are left out (the call is
    reported as raising). *)
Definition groupby (df : DataFrame) (key : string) : option GroupBy :=
  s ← df !! key;
  match s with
  | StrCol l =>
      let ks := merge_sort String.le (remove_dups l) in
      Some (mkGroupBy df key (StrCol ks)
              ((λ k, (λ x, bool_decide (x = k)) <$> l) <$> ks))
  | IntCol l =>
      let ks := merge_sort Z.le (remove_dups l) in
      Some (mkGroupBy df key (IntCol ks)
              ((λ k, (λ x, bool_decide (x = k)) <$> l) <$> ks))
  | CatCol cats l =>
      let ks := if observed then filter (λ c, Some c ∈ l) cats else cats in
      Some (mkGroupBy df key (CatCol cats (Some <$> ks))
              ((λ k, (λ o, bool_decide (o = Some k)) <$> l) <$> ks))
  | NumCol _ => None
  end.

(** [g[col].count().reset_index()] *)
Definition gb_count (g : GroupBy) (col : string) : option DataFrame :=
  s ← gb_frame g !! col;
  Some (<[gb_key g := gb_keys g]>
        {[ col := IntCol ((λ m, series_count (series_select m s)) <$> gb_masks g) ]}).

(** [g[col].mean().reset_index()] *)
Definition gb_mean (g : GroupBy) (col : string) : option DataFrame :=
  s ← gb_frame g !! col;
  xs ← as_float s;
  Some (<[gb_key g := gb_keys g]>
        {[ col := NumCol ((λ m, nanmean (select m xs)) <$> gb_masks g) ]}).

(** ** The callbacks *)

Definition update_pie_chart (selected_site : string) : Callback Figure :=
  spacex_df ← read_global;
  if bool_decide (selected_site = "ALL") then
    lift (px_pie spacex_df "Launch Site" (Some "class")
            "Total Successful Launches by Site")
  else
    sites ← lift (spacex_df !! "Launch Site");
    let filtered_df := boolean_index spacex_df (series_eq_str sites selected_site) in
    lift (px_pie filtered_df "class" None
            ("Success vs Failure for site " +:+ selected_site)).

(** The two row filters of [update_scatter_chart]:
    [df[(df['Payload Mass (kg)'] >= low) & (df['Payload Mass (kg)'] <= high)]]
    and [df[df['Launch Site'] == selected_site]]. *)
Definition filter_payload (low high : Q) (df : DataFrame) : option DataFrame :=
  payload ← df !! "Payload Mass (kg)";
  above ← series_ge payload low;
  payload ← df !! "Payload Mass (kg)";
  below ← series_le payload high;
  Some (boolean_index df (mask_and above below)).

Definition filter_site (selected_site : string) (df : DataFrame) : option DataFrame :=
  sites ← df !! "Launch Site";
  Some (boolean_index df (series_eq_str sites selected_site)).

Definition update_scatter_chart (selected_site : string) (payload_range : list Q)
  : Callback Figure :=
  '(low, high) ← lift (unpack2 payload_range);
  spacex_df ← read_global;
  filtered_df ← lift (filter_payload low high spacex_df);
  filtered_df ←
    (if bool_decide (selected_site ≠ "ALL")
     then lift (filter_site selected_site filtered_df)
     else mret filtered_df);
  lift (px_scatter filtered_df "Payload Mass (kg)" "class"
          "Booster Version Category" "Payload vs Launch Outcome").

Definition bins : list Q := [0; 2500; 5000; 7500; 10000]%Q.
Definition labels : list string :=
  ["0-2500"; "2500-5000"; "5000-7500"; "7500-10000"].

Definition update_insight_charts (selected_site : string)
  : Callback (Figure * Figure * Figure * Figure) :=
  (* Site success count *)
  spacex_df ← read_global;
  cls ← lift (spacex_df !! "class");
  g ← lift (groupby (boolean_index spacex_df (series_eq_int cls 1)) "Launch Site");
  site_success ← lift (gb_count g "class");
  fig_site_success ← lift (px_bar site_success "Launch Site" "class"
                             "Successful Launches by Site");
  (* Site success rate *)
  g ← lift (groupby spacex_df "Launch Site");
  site_rate ← lift (gb_mean g "class");
  fig_site_rate ← lift (px_bar site_rate "Launch Site" "class"
                          "Launch Success Rate by Site");
  (* Payload success rate *)
  payload ← lift (spacex_df !! "Payload Mass (kg)");
  payload_range ← lift (pd_cut payload bins labels);
  setitem "Payload Range" payload_range;;
  spacex_df ← read_global;
  g ← lift (groupby spacex_df "Payload Range");
  payload_rate ← lift (gb_mean g "class");
  fig_payload_rate ← lift (px_bar payload_rate "Payload Range" "class"
                             "Launch Success Rate by Payload Range");
  (* Booster success rate *)
  g ← lift (groupby spacex_df "Booster Version Category");
  booster_rate ← lift (gb_mean g "class");
  fig_booster_rate ← lift (px_bar booster_rate "Booster Version Category" "class"
                             "Launch Success Rate by Booster Version");
  mret (fig_site_success, fig_site_rate, fig_payload_rate, fig_booster_rate).

(** ** The server *)

(** A change of the dropdown or of the slider fires callbacks; each runs on
    the frame the earlier ones have left. *)
Inductive Event :=
| PieChart (selected_site : string)
| ScatterChart (selected_site : string) (payload_range : list Q)
| InsightCharts (selected_site : string).

Inductive Response :=
| OneFigure (f : Figure)
| FourFigures (fs : Figure * Figure * Figure * Figure).

Definition fire (e : Event) : Callback Response :=
  match e with
  | PieChart s => f ← update_pie_chart s; mret (OneFigure f)
  | ScatterChart s r => f ← update_scatter_chart s r; mret (OneFigure f)
  | InsightCharts s => fs ← update_insight_charts s; mret (FourFigures fs)
  end.

Fixpoint serve (events : list Event) (df : DataFrame) : DataFrame :=
  match events with
  | [] => df
  | e :: events => serve events (fire e df).2
  end.

End pandas_version.

(** ** Module-level values and the layout *)

(** [s.unique().tolist()]: the distinct values, in the order of their first
    appearance. *)
Fixpoint unique (l : list string) : list string :=
  match l with
  | [] => []
  | x :: l => x :: filter (λ y, y ≠ x) (unique l)
  end.

(** [launch_sites = spacex_df['Launch Site'].unique().tolist()], for the
    column of strings the dropdown is built from. *)
Definition launch_sites (spacex_df : DataFrame) : option (list string) :=
  s ← spacex_df !! "Launch Site";
  match s with
  | StrCol l => Some (unique l)
  | _ => None
  end.






(** The [options] of the dropdown, as pairs of a label and a value, and the
    [value] the range slider starts with. *)
Definition dropdown_options (spacex_df : DataFrame) : option (list (string * string)) :=
  sites ← launch_sites spacex_df;
  Some (("All Sites", "ALL") :: ((λ site, (site, site)) <$> (sites : list string))).


(** ** Reading the frame as records *)

(** The frame [df] holds the records [rows] in its four CSV columns. *)
Definition holds (df : DataFrame) (rows : list LaunchRecord) : Prop :=
  df !! "Launch Site" = Some (StrCol (launch_site <$> rows)) ∧
  df !! "Payload Mass (kg)" = Some (NumCol ((λ r, Some (payload_mass r)) <$> rows)) ∧
  df !! "class" = Some (IntCol (outcome <$> rows)) ∧
  df !! "Booster Version Category" = Some (StrCol (booster_category <$> rows)).

(** The records a scatter query is to return, in the words of the
    specification: payload within [low, high], both ends included, and at
    the selected site unless the selection is ["ALL"]. *)
Definition scatter_rows (selected_site : string) (low high : Q)
    (rows : list LaunchRecord) : list LaunchRecord :=
  filter (λ r, ((low <= payload_mass r)%Q ∧ (payload_mass r <= high)%Q) ∧
               (selected_site = "ALL" ∨ launch_site r = selected_site)) rows.

(** The figure that plots the records [rows], one point per record. *)
Definition scatter_figure (rows : list LaunchRecord) : Figure :=
  Scatter (NumCol ((λ r, Some (payload_mass r)) <$> rows))
    (IntCol (outcome <$> rows)) (StrCol (booster_category <$> rows))
    "Payload vs Launch Outcome".

(** The number of points a scatter chart plots. *)
Definition series_length (s : Series) : nat :=
  match s with
  | StrCol l => length l
  | IntCol l => length l
  | NumCol l => length l
  | CatCol _ l => length l
  end.

Definition figure_points (f : Figure) : nat :=
  match f with
  | Scatter x _ _ _ => series_length x
  | _ => 0%nat
  end.

(** The bucket [pd.cut] gives a payload mass, and the column of them. *)
Definition payload_bucket (x : Q) : option string :=
  cut_label bins labels (Some x).

Definition bucket_column (rows : list LaunchRecord) : Series :=
  CatCol labels ((λ r, payload_bucket (payload_mass r)) <$> rows).

(** The pie chart of a selection. *)
Definition pie_figure (selected_site : string) (rows : list LaunchRecord) : Figure :=
  if bool_decide (selected_site = "ALL") then
    Pie (StrCol (launch_site <$> rows)) (Some (IntCol (outcome <$> rows)))
      "Total Successful Launches by Site"
  else
    Pie (IntCol (outcome <$> filter (λ r, launch_site r = selected_site) rows)) None
      ("Success vs Failure for site " +:+ selected_site).

(** Mean outcome of a list of records: its success rate. *)
Definition success_rate (rows : list LaunchRecord) : option Q :=
  mean ((λ r, inject_Z (outcome r)) <$> rows).

(** Number of records, as pandas counts them. *)
Definition count_rows (rows : list LaunchRecord) : Z := Z.of_nat (length rows).

Definition successes (rows : list LaunchRecord) : list LaunchRecord :=
  filter (λ r, outcome r = 1%Z) rows.

(** The keys of a [groupby] on a string column: distinct, ascending. *)
Definition sorted_keys (l : list string) : list string :=
  merge_sort String.le (remove_dups l).

(** The buckets that get a group in the payload chart. *)
Definition bucket_keys (observed : bool) (rows : list LaunchRecord) : list string :=
  if observed
  then filter (λ c, Some c ∈ (λ r, payload_bucket (payload_mass r)) <$> rows) labels
  else labels.

(** The four bar charts over the records [rows]. *)
Definition site_success_figure (rows : list LaunchRecord) : Figure :=
  let ks := sorted_keys (launch_site <$> successes rows) in
  Bar (StrCol ks)
    (IntCol ((λ k, count_rows (filter (λ r, launch_site r = k) (successes rows))) <$> ks))
    "Successful Launches by Site".

Definition site_rate_figure (rows : list LaunchRecord) : Figure :=
  let ks := sorted_keys (launch_site <$> rows) in
  Bar (StrCol ks)
    (NumCol ((λ k, success_rate (filter (λ r, launch_site r = k) rows)) <$> ks))
    "Launch Success Rate by Site".

Definition payload_rate_figure (observed : bool) (rows : list LaunchRecord) : Figure :=
  let ks := bucket_keys observed rows in
  Bar (CatCol labels (Some <$> ks))
    (NumCol ((λ k, success_rate
                     (filter (λ r, payload_bucket (payload_mass r) = Some k) rows)) <$> ks))
    "Launch Success Rate by Payload Range".

Definition booster_rate_figure (rows : list LaunchRecord) : Figure :=
  let ks := sorted_keys (booster_category <$> rows) in
  Bar (StrCol ks)
    (NumCol ((λ k, success_rate (filter (λ r, booster_category r = k) rows)) <$> ks))
    "Launch Success Rate by Booster Version".

Definition insight_figures (observed : bool) (rows : list LaunchRecord)
  : Figure * Figure * Figure * Figure :=
  (site_success_figure rows, site_rate_figure rows,
   payload_rate_figure observed rows, booster_rate_figure rows).

(** What a callback is to answer, as a function of the records and of the
    selection alone. *)
Definition view (observed : bool) (e : Event) (rows : list LaunchRecord)
  : option Response :=
  match e with
  | PieChart s => Some (OneFigure (pie_figure s rows))
  | ScatterChart s r =>
      '(low, high) ← unpack2 r;
      Some (OneFigure (scatter_figure (scatter_rows s low high rows)))
  | InsightCharts _ => Some (FourFigures (insight_figures observed rows))
  end.

(** The slices of a pie chart whose labels are [f] of the records and whose
    values are [w] of the records: one per distinct label, with the total of
    the values under that label. *)
Definition slices_by (f : LaunchRecord → Label) (w : LaunchRecord → Z)
    (rows : list LaunchRecord) : list (Label * Z) :=
  (λ k, (k, Zsum (w <$> filter (λ r, f r = k) rows))) <$> remove_dups (f <$> rows).

(** Outcomes are 0 or 1. *)
Definition binary (rows : list LaunchRecord) : Prop :=
  Forall (λ r, outcome r = 0%Z ∨ outcome r = 1%Z) rows.

(** The three-record dataset of the specification's scenarios. *)
Definition scenario : list LaunchRecord :=
  [ mkLaunch "A" 1000 1 "v1.0"; mkLaunch "A" 6000 0 "FT"; mkLaunch "B" 3000 1 "FT" ].

(** * Proofs *)

(** ** Masks and selections *)

Lemma select_fmap {A B} (P : A → Prop) `{!∀ x, Decision (P x)} (g : A → B) l :
  select ((λ x, bool_decide (P x)) <$> l) (g <$> l) = g <$> filter P l.
Proof.
  induction l as [|a l IH]; [done|].
  rewrite filter_cons, !fmap_cons. cbn [select].
  destruct (decide (P a)).
  - rewrite bool_decide_true, fmap_cons by done. by f_equal.
  - by rewrite bool_decide_false.
Qed.

Lemma select_select {A} (m1 m2 : list bool) (l : list A) :
  select (select m1 m2) (select m1 l) = select (mask_and m1 m2) l.
Proof.
  revert m2 l. induction m1 as [|b1 m1 IH]; intros m2 l; [done|].
  destruct m2 as [|b2 m2], l as [|x l]; cbn.
  - done.
  - done.
  - destruct b1; [done|]. by destruct (select m1 m2).
  - destruct b1, b2; cbn; by rewrite IH.
Qed.

Lemma mask_and_comm m1 m2 : mask_and m1 m2 = mask_and m2 m1.
Proof.
  revert m2. induction m1 as [|b1 m1 IH]; intros [|b2 m2]; cbn; try done.
  by rewrite IH, andb_comm.
Qed.

Lemma mask_and_fmap {A} (P R : A → Prop)
    `{!∀ x, Decision (P x)} `{!∀ x, Decision (R x)} (l : list A) :
  mask_and ((λ x, bool_decide (P x)) <$> l) ((λ x, bool_decide (R x)) <$> l)
  = (λ x, bool_decide (P x ∧ R x)) <$> l.
Proof.
  induction l as [|a l IH]; [done|]. cbn. rewrite <- IH. f_equal.
  by rewrite bool_decide_and.
Qed.

(** ** Frames that hold the records *)

Lemma holds_read_csv rows others : holds (read_csv rows others) rows.
Proof. unfold holds, read_csv. by repeat split; simplify_map_eq. Qed.

Lemma holds_insert df rows s :
  holds df rows → holds (<["Payload Range" := s]> df) rows.
Proof. intros (?&?&?&?). unfold holds. by rewrite !lookup_insert_ne. Qed.

Lemma holds_boolean_index df rows (P : LaunchRecord → Prop)
    `{!∀ r, Decision (P r)} :
  holds df rows →
  holds (boolean_index df ((λ r, bool_decide (P r)) <$> rows)) (filter P rows).
Proof.
  intros (Hs & Hp & Hc & Hb). unfold holds, boolean_index.
  rewrite !lookup_fmap, Hs, Hp, Hc, Hb. cbn.
  by rewrite !select_fmap.
Qed.

Lemma series_ge_payload rows low :
  series_ge (NumCol ((λ r, Some (payload_mass r)) <$> rows)) low
  = Some ((λ r, bool_decide (low <= payload_mass r)%Q) <$> rows).
Proof. unfold series_ge. cbn. by rewrite <- list_fmap_compose. Qed.

Lemma series_le_payload rows high :
  series_le (NumCol ((λ r, Some (payload_mass r)) <$> rows)) high
  = Some ((λ r, bool_decide (payload_mass r <= high)%Q) <$> rows).
Proof. unfold series_le. cbn. by rewrite <- list_fmap_compose. Qed.

Lemma series_eq_str_site rows sel :
  series_eq_str (StrCol (launch_site <$> rows)) sel
  = (λ r, bool_decide (launch_site r = sel)) <$> rows.
Proof. unfold series_eq_str. by rewrite <- list_fmap_compose. Qed.

Lemma series_eq_int_outcome rows n :
  series_eq_int (IntCol (outcome <$> rows)) n
  = (λ r, bool_decide (outcome r = n)) <$> rows.
Proof. unfold series_eq_int. by rewrite <- list_fmap_compose. Qed.

Lemma filter_payload_holds df rows low high :
  holds df rows →
  filter_payload low high df
  = Some (boolean_index df
            ((λ r, bool_decide ((low <= payload_mass r)%Q ∧ (payload_mass r <= high)%Q))
               <$> rows)).
Proof.
  intros (_ & Hp & _). unfold filter_payload. rewrite Hp. cbn [mbind option_bind].
  rewrite series_ge_payload, series_le_payload. cbn [mbind option_bind].
  by rewrite mask_and_fmap.
Qed.

Lemma filter_site_holds df rows sel :
  holds df rows →
  filter_site sel df
  = Some (boolean_index df ((λ r, bool_decide (launch_site r = sel)) <$> rows)).
Proof.
  intros (Hs & _). unfold filter_site. rewrite Hs. cbn [mbind option_bind].
  by rewrite series_eq_str_site.
Qed.

Lemma px_scatter_holds df rows :
  holds df rows →
  px_scatter df "Payload Mass (kg)" "class" "Booster Version Category"
    "Payload vs Launch Outcome"
  = Some (scatter_figure rows).
Proof. intros (_ & Hp & Hc & Hb). unfold px_scatter. by rewrite Hp, Hc, Hb. Qed.

Ltac run_callback :=
  unfold mbind, callback_bind, mret, callback_ret, read_global, lift, setitem;
  cbn beta iota.

Lemma update_scatter_chart_holds df rows sel low high :
  holds df rows →
  update_scatter_chart sel [low; high] df
  = (Some (scatter_figure (scatter_rows sel low high rows)), df).
Proof.
  intros H. unfold update_scatter_chart. run_callback. cbn [unpack2].
  rewrite (filter_payload_holds _ _ _ _ H).
  pose proof (holds_boolean_index _ _
    (λ r, (low <= payload_mass r)%Q ∧ (payload_mass r <= high)%Q) H) as H1.
  case_bool_decide as Hsel.
  - rewrite (filter_site_holds _ _ _ H1).
    pose proof (holds_boolean_index _ _ (λ r, launch_site r = sel) H1) as H2.
    rewrite (px_scatter_holds _ _ H2). do 3 f_equal.
    unfold scatter_rows. rewrite list_filter_filter.
    apply list_filter_iff. intros r. tauto.
  - rewrite (px_scatter_holds _ _ H1). do 3 f_equal.
    unfold scatter_rows. apply list_filter_iff. intros r.
    tauto.
Qed.

Lemma update_pie_chart_holds df rows sel :
  holds df rows → update_pie_chart sel df = (Some (pie_figure sel rows), df).
Proof.
  intros H. unfold update_pie_chart, pie_figure. run_callback.
  case_bool_decide as Hsel.
  - destruct H as (Hs & _ & Hc & _). unfold px_pie. by rewrite Hs, Hc.
  - pose proof H as (Hs & _). rewrite Hs. rewrite series_eq_str_site.
    pose proof (holds_boolean_index _ _ (λ r, launch_site r = sel) H)
      as (_ & _ & Hc & _).
    unfold px_pie. by rewrite Hc.
Qed.

(** ** Grouping the records *)

Section grouping.
Context {K : Type} (P : K → LaunchRecord → Prop) `{!∀ k r, Decision (P k r)}.
Variables (df : DataFrame) (rows : list LaunchRecord).
Variables (key : string) (keys : Series) (ks : list K).
Hypothesis Hdf : holds df rows.

Let masks : list (list bool) :=
  (λ k, (λ r, bool_decide (P k r)) <$> rows) <$> ks.

Lemma omap_id_Some {A B} (f : A → B) (l : list A) :
  omap id ((λ x, Some (f x)) <$> l) = f <$> l.
Proof. induction l as [|a l IH]; [done|]. cbn. by rewrite IH. Qed.

Lemma gb_count_holds :
  gb_count (mkGroupBy df key keys masks) "class"
  = Some (<[key := keys]>
          {[ "class" := IntCol ((λ k, count_rows (filter (P k) rows)) <$> ks) ]}).
Proof.
  destruct Hdf as (_ & _ & Hc & _). unfold gb_count. cbn [gb_frame gb_key gb_keys gb_masks].
  rewrite Hc. cbn [mbind option_bind]. do 4 f_equal.
  unfold masks. rewrite <- list_fmap_compose. apply list_fmap_ext.
  intros _ k _. cbn. by rewrite select_fmap, length_fmap.
Qed.

Lemma gb_mean_holds :
  gb_mean (mkGroupBy df key keys masks) "class"
  = Some (<[key := keys]>
          {[ "class" := NumCol ((λ k, success_rate (filter (P k) rows)) <$> ks) ]}).
Proof.
  destruct Hdf as (_ & _ & Hc & _). unfold gb_mean. cbn [gb_frame gb_key gb_keys gb_masks].
  rewrite Hc. cbn [mbind option_bind as_float]. do 4 f_equal.
  unfold masks. rewrite <- !list_fmap_compose. apply list_fmap_ext.
  intros _ k _. cbn. unfold nanmean, success_rate.
  rewrite (select_fmap (P k)). f_equal.
  apply (omap_id_Some (λ r, inject_Z (outcome r))).
Qed.

End grouping.

Lemma groupby_str_column observed df rows key (f : LaunchRecord → string) :
  df !! key = Some (StrCol (f <$> rows)) →
  groupby observed df key
  = Some (mkGroupBy df key (StrCol (sorted_keys (f <$> rows)))
            ((λ k, (λ r, bool_decide (f r = k)) <$> rows) <$> sorted_keys (f <$> rows))).
Proof.
  intros H. unfold groupby. rewrite H. cbn [mbind option_bind].
  do 2 f_equal. apply list_fmap_ext. intros _ k _.
  by rewrite <- list_fmap_compose.
Qed.

Lemma groupby_bucket_column observed df rows :
  df !! "Payload Range" = Some (bucket_column rows) →
  groupby observed df "Payload Range"
  = Some (mkGroupBy df "Payload Range"
            (CatCol labels (Some <$> bucket_keys observed rows))
            ((λ k, (λ r, bool_decide (payload_bucket (payload_mass r) = Some k)) <$> rows)
               <$> bucket_keys observed rows)).
Proof.
  intros H. unfold groupby. rewrite H. unfold bucket_column. cbn [mbind option_bind].
  do 2 f_equal. apply list_fmap_ext. intros _ k _.
  by rewrite <- list_fmap_compose.
Qed.

Lemma px_bar_reset_index key keys vals title :
  key ≠ "class" →
  px_bar (<[key := keys]> {[ "class" := vals ]}) key "class" title
  = Some (Bar keys vals title).
Proof.
  intros. unfold px_bar.
  by rewrite lookup_insert_eq, lookup_insert_ne, lookup_singleton_eq.
Qed.

Lemma pd_cut_payload rows :
  pd_cut (NumCol ((λ r, Some (payload_mass r)) <$> rows)) bins labels
  = Some (bucket_column rows).
Proof.
  unfold pd_cut. cbn [as_float mbind option_bind].
  assert (increasing bins && bool_decide (S (length labels) = length bins)
          && bool_decide (NoDup labels) = true) as -> by (by vm_compute).
  unfold bucket_column, payload_bucket. by rewrite <- list_fmap_compose.
Qed.

Lemma update_insight_charts_holds observed df rows sel :
  holds df rows →
  update_insight_charts observed sel df
  = (Some (insight_figures observed rows),
     <["Payload Range" := bucket_column rows]> df).
Proof.
  intros H. pose proof H as (Hs & Hp & Hc & Hb).
  pose proof (holds_boolean_index _ _ (λ r, outcome r = 1%Z) H) as H1.
  pose proof (holds_insert _ _ (bucket_column rows) H) as H2.
  unfold update_insight_charts. run_callback.
  rewrite Hc, series_eq_int_outcome.
  rewrite (groupby_str_column _ _ _ _ launch_site (proj1 H1)).
  rewrite (gb_count_holds (λ k r, launch_site r = k) _ _ _ _ _ H1).
  rewrite px_bar_reset_index by done.
  rewrite (groupby_str_column _ _ _ _ launch_site Hs).
  rewrite (gb_mean_holds (λ k r, launch_site r = k) _ _ _ _ _ H).
  rewrite px_bar_reset_index by done.
  rewrite Hp, pd_cut_payload.
  rewrite (groupby_bucket_column _ _ rows) by apply lookup_insert_eq.
  rewrite (gb_mean_holds (λ k r, payload_bucket (payload_mass r) = Some k) _ _ _ _ _ H2).
  rewrite px_bar_reset_index by done.
  rewrite (groupby_str_column _ _ _ _ booster_category (proj2 (proj2 (proj2 H2)))).
  rewrite (gb_mean_holds (λ k r, booster_category r = k) _ _ _ _ _ H2).
  rewrite px_bar_reset_index by done.
  done.
Qed.

(** ** The server's frame *)

Lemma update_scatter_chart_raises df sel r :
  unpack2 r = None → update_scatter_chart sel r df = (None, df).
Proof. intros H. unfold update_scatter_chart. run_callback. by rewrite H. Qed.

Lemma unpack2_Some r low high : unpack2 r = Some (low, high) → r = [low; high].
Proof.
  destruct r as [|a [|b [|c r]]]; cbn; try done. by intros [= -> ->].
Qed.

Lemma fire_holds observed e df rows :
  holds df rows →
  fire observed e df
  = (view observed e rows,
     match e with
     | InsightCharts _ => <["Payload Range" := bucket_column rows]> df
     | _ => df
     end).
Proof.
  intros H. destruct e as [s|s r|s]; unfold fire; run_callback.
  - by rewrite (update_pie_chart_holds _ _ _ H).
  - cbn [view]. destruct (unpack2 r) as [[low high]|] eqn:Hr.
    + apply unpack2_Some in Hr as ->.
      by rewrite (update_scatter_chart_holds _ _ _ _ _ H).
    + by rewrite (update_scatter_chart_raises _ _ _ Hr).
  - by rewrite (update_insight_charts_holds _ _ _ _ H).
Qed.

Lemma serve_state observed events df rows :
  holds df rows →
  serve observed events df = df ∨
  serve observed events df = <["Payload Range" := bucket_column rows]> df.
Proof.
  revert df. induction events as [|e events IH]; intros df H; [by left|].
  cbn [serve]. rewrite (fire_holds _ _ _ _ H). cbn [snd].
  destruct e; try by apply IH.
  right. destruct (IH _ (holds_insert _ _ (bucket_column rows) H)) as [->| ->];
    by rewrite ?insert_insert_eq.
Qed.

Lemma serve_holds observed events df rows :
  holds df rows → holds (serve observed events df) rows.
Proof.
  intros H. destruct (serve_state observed events _ _ H) as [->| ->];
    auto using holds_insert.
Qed.

Lemma served_holds observed events rows others :
  holds (serve observed events (read_csv rows others)) rows.
Proof. apply serve_holds, holds_read_csv. Qed.

(** ** Filters of the scatter query *)

Lemma boolean_index_twice (df : DataFrame) m1 m2 :
  boolean_index (boolean_index df m1) (select m1 m2)
  = boolean_index df (mask_and m1 m2).
Proof.
  unfold boolean_index. rewrite <- map_fmap_compose.
  apply map_fmap_ext. intros _ s _. unfold compose.
  destruct s; cbn; by rewrite select_select.
Qed.

Lemma scatter_rows_inverted sel low high rows :
  (high < low)%Q → scatter_rows sel low high rows = [].
Proof.
  intros Hlt. unfold scatter_rows.
  induction rows as [|r rows IH]; [done|].
  rewrite filter_cons_False; [done|].
  intros [[H1 H2] _]. lra.
Qed.

(** ** The buckets of [pd.cut] *)

Ltac filter_edges :=
  unfold payload_bucket, cut_label, searchsorted_left, bins;
  repeat first [ rewrite filter_cons_True by (cbn beta; lra)
               | rewrite filter_cons_False by (cbn beta; lra) ];
  rewrite filter_nil.

Lemma payload_bucket_cases x :
  ((x <= 0)%Q ∧ payload_bucket x = None) ∨
  ((0 < x)%Q ∧ (x <= 2500)%Q ∧ payload_bucket x = Some "0-2500") ∨
  ((2500 < x)%Q ∧ (x <= 5000)%Q ∧ payload_bucket x = Some "2500-5000") ∨
  ((5000 < x)%Q ∧ (x <= 7500)%Q ∧ payload_bucket x = Some "5000-7500") ∨
  ((7500 < x)%Q ∧ (x <= 10000)%Q ∧ payload_bucket x = Some "7500-10000") ∨
  ((10000 < x)%Q ∧ payload_bucket x = None).
Proof.
  destruct (Qlt_le_dec 0 x); [|left; split; [done|]; by filter_edges].
  destruct (Qlt_le_dec 2500 x);
    [|right; left; repeat split; try done; by filter_edges].
  destruct (Qlt_le_dec 5000 x);
    [|do 2 right; left; repeat split; try done; by filter_edges].
  destruct (Qlt_le_dec 7500 x);
    [|do 3 right; left; repeat split; try done; by filter_edges].
  destruct (Qlt_le_dec 10000 x);
    [|do 4 right; left; repeat split; try done; by filter_edges].
  do 5 right. split; [done|]. by filter_edges.
Qed.

(** ** Means of binary outcomes *)

Lemma Qsum_bounds (l : list Q) :
  Forall (λ q, (0 <= q)%Q ∧ (q <= 1)%Q) l →
  (0 <= Qsum l)%Q ∧ (Qsum l <= inject_Z (Z.of_nat (length l)))%Q.
Proof.
  induction 1 as [|q l [H0 H1] _ [IH0 IH1]]; cbn [Qsum foldr length].
  - split; apply Qle_refl.
  - fold (Qsum l). rewrite Nat2Z.inj_succ. unfold Z.succ.
    rewrite inject_Z_plus. change (inject_Z 1) with 1%Q. split; lra.
Qed.

Lemma mean_bounds (l : list Q) v :
  Forall (λ q, (0 <= q)%Q ∧ (q <= 1)%Q) l →
  mean l = Some v → (0 <= v)%Q ∧ (v <= 1)%Q.
Proof.
  intros Hl Hv. destruct (Qsum_bounds l Hl) as [H0 H1].
  destruct l as [|q l]; [done|]. injection Hv as <-.
  set (n := inject_Z (Z.of_nat (length (q :: l)))) in *.
  assert (0 < n)%Q as Hn.
  { unfold n. change 0%Q with (inject_Z 0). rewrite <- Zlt_Qlt. cbn [length]. lia. }
  change ((0 <= Qsum (q :: l) / n)%Q ∧ (Qsum (q :: l) / n <= 1)%Q).
  split.
  - apply Qle_shift_div_l; [done|]. lra.
  - apply Qle_shift_div_r; [done|]. lra.
Qed.

Lemma binary_filter (P : LaunchRecord → Prop) `{!∀ r, Decision (P r)} rows :
  binary rows → binary (filter P rows).
Proof.
  unfold binary. rewrite !Forall_forall. intros Hb r Hr.
  apply list_elem_of_filter in Hr as [_ Hr]. auto.
Qed.

Lemma success_rate_bounds rows v :
  binary rows → success_rate rows = Some v → (0 <= v)%Q ∧ (v <= 1)%Q.
Proof.
  intros Hb. apply mean_bounds. apply Forall_fmap.
  eapply Forall_impl; [exact Hb|]. intros r Hr. unfold compose. cbn beta.
  destruct Hr as [-> | ->]; split; done.
Qed.

Lemma success_rate_None rows : success_rate rows = None → rows = [].
Proof. by destruct rows. Qed.

Section rates.
Context {K : Type} (P : K → LaunchRecord → Prop) `{!∀ k r, Decision (P k r)}.
Variables (rows : list LaunchRecord) (ks : list K).

Let ys : list (option Q) := (λ k, success_rate (filter (P k) rows)) <$> ks.

Lemma rates_bounded v :
  binary rows → Some v ∈ ys → (0 <= v)%Q ∧ (v <= 1)%Q.
Proof.
  intros Hb Hv. apply list_elem_of_fmap in Hv as (k & Hv & _).
  symmetry in Hv. eapply success_rate_bounds; [|exact Hv].
  by apply binary_filter.
Qed.

Lemma rates_missing i k r :
  ks !! i = Some k → ys !! i = Some None → r ∈ rows → ¬ P k r.
Proof.
  intros Hk Hy Hr HP. unfold ys in Hy.
  rewrite list_lookup_fmap, Hk in Hy. injection Hy as Hy.
  apply success_rate_None in Hy.
  assert (r ∈ filter (P k) rows) as Hin by by apply list_elem_of_filter.
  rewrite Hy in Hin. by apply elem_of_nil in Hin.
Qed.

End rates.

(** ** Keys of the groups *)

Lemma elem_of_sorted_keys l s : s ∈ sorted_keys l ↔ s ∈ l.
Proof.
  unfold sorted_keys. by rewrite merge_sort_Permutation, elem_of_remove_dups.
Qed.

Lemma NoDup_sorted_keys l : NoDup (sorted_keys l).
Proof.
  unfold sorted_keys. rewrite merge_sort_Permutation. apply NoDup_remove_dups.
Qed.

Lemma elem_of_bucket_keys observed rows r k :
  r ∈ rows → payload_bucket (payload_mass r) = Some k →
  k ∈ bucket_keys observed rows.
Proof.
  intros Hr Hk.
  assert (k ∈ labels) as Hl.
  { destruct (payload_bucket_cases (payload_mass r))
      as [[? E]|[(?&?&E)|[(?&?&E)|[(?&?&E)|[(?&?&E)|[? E]]]]]];
      rewrite E in Hk; try done; injection Hk as <-; unfold labels; set_solver. }
  unfold bucket_keys. destruct observed; [|done].
  apply list_elem_of_filter. split; [|done].
  apply list_elem_of_fmap. exists r. by rewrite Hk.
Qed.

Lemma update_insight_charts_column observed rows others events sel :
  (update_insight_charts observed sel
     (serve observed events (read_csv rows others))).2 !! "Payload Range"
  = Some (CatCol labels (payload_bucket <$> (payload_mass <$> rows))).
Proof.
  rewrite (update_insight_charts_holds _ _ rows) by apply served_holds.
  cbn [snd]. rewrite lookup_insert_eq. unfold bucket_column.
  by rewrite <- list_fmap_compose.
Qed.

(** ** Tables of the bar charts *)

Lemma lookup_zip_fmap {V} (f : string → V) (ks : list string) (s : string) :
  NoDup ks →
  (list_to_map (zip ks (f <$> ks)) : gmap string V) !! s
  = if decide (s ∈ ks) then Some (f s) else None.
Proof.
  induction 1 as [|k ks Hk _ IH]; cbn.
  - rewrite lookup_empty. case_decide as Hs; [|done]. by apply elem_of_nil in Hs.
  - rewrite lookup_insert, IH. destruct (decide (k = s)) as [->|Hne].
    + by rewrite decide_True by left.
    + destruct (decide (s ∈ ks)) as [Hs|Hs].
      * by rewrite decide_True by by right.
      * rewrite decide_False; [done|]. rewrite elem_of_cons. by intros [?|?].
Qed.

Lemma count_rows_pos (P : LaunchRecord → Prop) `{!∀ r, Decision (P r)} rows :
  (0 < count_rows (filter P rows))%Z ↔ ∃ r, r ∈ rows ∧ P r.
Proof.
  unfold count_rows. split.
  - destruct (filter P rows) as [|r l] eqn:E; cbn; [lia|]. intros _.
    assert (r ∈ filter P rows) as Hr by (rewrite E; left).
    apply list_elem_of_filter in Hr as [HP Hr]. by exists r.
  - intros (r & Hr & HP).
    assert (r ∈ filter P rows) as Hin by by apply list_elem_of_filter.
    destruct (filter P rows); [by apply elem_of_nil in Hin|]. cbn. lia.
Qed.

(** ** Slices of the pie charts *)

Lemma Zsum_cons a l : Zsum (a :: l) = (a + Zsum l)%Z.
Proof. done. Qed.

Lemma Zsum_fmap_add {A} (f g : A → Z) (l : list A) :
  Zsum ((λ k, f k + g k)%Z <$> l) = (Zsum (f <$> l) + Zsum (g <$> l))%Z.
Proof.
  induction l as [|a l IH]; [done|]. rewrite !fmap_cons, !Zsum_cons, IH. lia.
Qed.

Lemma Zsum_indicator {A} `{EqDecision A} (x : A) (w : Z) (ks : list A) :
  NoDup ks → x ∈ ks →
  Zsum ((λ k, if bool_decide (x = k) then w else 0%Z) <$> ks) = w.
Proof.
  induction 1 as [|k ks Hk Hnd IH]; intros Hx; [by apply elem_of_nil in Hx|].
  rewrite fmap_cons, Zsum_cons.
  apply elem_of_cons in Hx as [->|Hx].
  - rewrite bool_decide_true by done.
    assert (Zsum ((λ k0, if bool_decide (k = k0) then w else 0%Z) <$> ks) = 0%Z) as ->;
      [|lia].
    clear IH Hnd. induction ks as [|k' ks IH]; [done|].
    apply not_elem_of_cons in Hk as [Hne Hk]. rewrite fmap_cons, Zsum_cons.
    rewrite bool_decide_false by done. by rewrite IH.
  - rewrite bool_decide_false by (intros ->; contradiction). by rewrite IH.
Qed.

Lemma Zsum_groups {A} `{EqDecision A} (ks ls : list A) (ws : list Z) :
  NoDup ks → (∀ x, x ∈ ls → x ∈ ks) → length ls = length ws →
  Zsum ((λ k, Zsum (select ((λ x, bool_decide (x = k)) <$> ls) ws)) <$> ks) = Zsum ws.
Proof.
  intros Hks. revert ws. induction ls as [|x ls IH]; intros ws Hcover Hlen.
  - destruct ws; [|done]. clear. by induction ks.
  - destruct ws as [|w ws]; [done|].
    rewrite (list_fmap_ext _
      (λ k, (if bool_decide (x = k) then w else 0)
            + Zsum (select ((λ y, bool_decide (y = k)) <$> ls) ws))%Z).
    2:{ intros _ k _. rewrite fmap_cons. cbn [select].
        case_bool_decide; [by rewrite Zsum_cons|lia]. }
    rewrite (Zsum_fmap_add (λ k, if bool_decide (x = k) then w else 0%Z)).
    rewrite Zsum_indicator by (try done; apply Hcover; left).
    rewrite IH; [done| |by injection Hlen].
    intros y Hy. apply Hcover. by right.
Qed.

Lemma Zsum_ones {A} (l : list A) : Zsum ((λ _, 1%Z) <$> l) = Z.of_nat (length l).
Proof.
  induction l as [|a l IH]; [done|]. rewrite fmap_cons, Zsum_cons, IH.
  cbn [length]. lia.
Qed.

Lemma Zsum_binary rows :
  binary rows → Zsum (outcome <$> rows) = count_rows (successes rows).
Proof.
  unfold count_rows, successes.
  induction 1 as [|r rows Hr _ IH]; [done|].
  rewrite fmap_cons, Zsum_cons, IH, filter_cons.
  destruct Hr as [Hr|Hr]; rewrite Hr.
  - rewrite decide_False by done. lia.
  - rewrite decide_True by done. cbn [length]. lia.
Qed.

(** The value of the slice of label [k], when the labels are [f] of the
    records and the values [w] of the records. *)
Lemma slice_value {A} `{EqDecision A} (f : LaunchRecord → A)
    (w : LaunchRecord → Z) rows k :
  Zsum (select ((λ x, bool_decide (x = k)) <$> (f <$> rows)) (w <$> rows))
  = Zsum (w <$> filter (λ r, f r = k) rows).
Proof.
  rewrite <- list_fmap_compose.
  exact (f_equal Zsum (select_fmap (λ r, f r = k) w rows)).
Qed.

Lemma pie_slices_by (f : LaunchRecord → Label) (w : LaunchRecord → Z) rows :
  (λ k, (k, Zsum (select ((λ x, bool_decide (x = k)) <$> (f <$> rows)) (w <$> rows))))
    <$> remove_dups (f <$> rows)
  = slices_by f w rows.
Proof. apply list_fmap_ext. intros _ k _. by rewrite slice_value. Qed.

Lemma pie_slices_all rows :
  pie_slices (pie_figure "ALL" rows)
  = Some (slices_by (λ r, LStr (launch_site r)) outcome rows).
Proof.
  unfold pie_figure. rewrite bool_decide_true by done.
  cbn [pie_slices series_labels mbind option_bind].
  rewrite <- list_fmap_compose.
  exact (f_equal Some (pie_slices_by (λ r, LStr (launch_site r)) outcome rows)).
Qed.

Lemma pie_slices_site sel rows :
  sel ≠ "ALL" →
  pie_slices (pie_figure sel rows)
  = Some (slices_by (λ r, LInt (outcome r)) (λ _, 1%Z)
            (filter (λ r, launch_site r = sel) rows)).
Proof.
  intros Hsel. unfold pie_figure. rewrite bool_decide_false by done.
  cbn [pie_slices series_labels mbind option_bind].
  rewrite <- !list_fmap_compose.
  exact (f_equal Some (pie_slices_by (λ r, LInt (outcome r)) (λ _, 1%Z) _)).
Qed.

Lemma slices_by_keys f w rows : (slices_by f w rows).*1 = remove_dups (f <$> rows).
Proof.
  unfold slices_by. rewrite <- list_fmap_compose. apply list_fmap_id.
Qed.

Lemma slices_by_sum f w rows : Zsum (slices_by f w rows).*2 = Zsum (w <$> rows).
Proof.
  rewrite <- pie_slices_by, <- list_fmap_compose.
  apply (Zsum_groups (remove_dups (f <$> rows)) (f <$> rows) (w <$> rows)).
  - apply NoDup_remove_dups.
  - intros x. by rewrite elem_of_remove_dups.
  - by rewrite !length_fmap.
Qed.

Lemma elem_of_slices_by f w rows l n :
  (l, n) ∈ slices_by f w rows
  ↔ l ∈ f <$> rows ∧ n = Zsum (w <$> filter (λ r, f r = l) rows).
Proof.
  unfold slices_by. rewrite list_elem_of_fmap. setoid_rewrite elem_of_remove_dups.
  split.
  - by intros (k & [= -> ->] & Hk).
  - intros [Hl ->]. by exists l.
Qed.

Lemma successes_at_label (rows : list LaunchRecord) s :
  successes (filter (λ r, LStr (launch_site r) = LStr s) rows)
  = filter (λ r, launch_site r = s ∧ outcome r = 1%Z) rows.
Proof.
  unfold successes. rewrite list_filter_filter. apply list_filter_iff.
  intros r. split; [intros [? [= ?]]|intros [? ?]]; split; congruence.
Qed.

Lemma class_at_label (rows : list LaunchRecord) sel c :
  filter (λ r, LInt (outcome r) = LInt c) (filter (λ r, launch_site r = sel) rows)
  = filter (λ r, launch_site r = sel ∧ outcome r = c) rows.
Proof.
  rewrite list_filter_filter. apply list_filter_iff.
  intros r. split; [intros [[= ?] ?]|intros [? ?]]; split; congruence.
Qed.

Lemma Sorted_sorted_keys l : Sorted String.le (sorted_keys l).
Proof. unfold sorted_keys. apply (Sorted_merge_sort String.le). Qed.

Lemma NoDup_bucket_keys observed rows : NoDup (bucket_keys observed rows).
Proof.
  assert (NoDup labels) as Hl by (apply (bool_decide_unpack _); by vm_compute).
  unfold bucket_keys. destruct observed; [by apply NoDup_filter|done].
Qed.

(** ** Rates of the groups, bar by bar *)

Section rates_by_index.
Context {K : Type} (P : K → LaunchRecord → Prop) `{!∀ k r, Decision (P k r)}.
Variables (rows : list LaunchRecord) (ks : list K).

Let ys : list (option Q) := (λ k, success_rate (filter (P k) rows)) <$> ks.

Lemma rates_at i k :
  ks !! i = Some k → ys !! i = Some (success_rate (filter (P k) rows)).
Proof. intros Hk. unfold ys. by rewrite list_lookup_fmap, Hk. Qed.

Lemma rates_of_nonempty i k r :
  binary rows → ks !! i = Some k → r ∈ rows → P k r →
  ∃ v, ys !! i = Some (Some v) ∧ (0 <= v)%Q ∧ (v <= 1)%Q.
Proof.
  intros Hb Hk Hr HP. rewrite (rates_at i k Hk).
  destruct (success_rate (filter (P k) rows)) as [v|] eqn:Hv.
  - exists v. split; [done|].
    eapply success_rate_bounds; [|exact Hv]. by apply binary_filter.
  - apply success_rate_None in Hv.
    assert (r ∈ filter (P k) rows) as Hin by by apply list_elem_of_filter.
    rewrite Hv in Hin. by apply elem_of_nil in Hin.
Qed.

End rates_by_index.

Section counts_by_index.
Context {K : Type} (P : K → LaunchRecord → Prop) `{!∀ k r, Decision (P k r)}.
Variables (rows : list LaunchRecord) (ks : list K).

Lemma counts_at i k :
  ks !! i = Some k →
  ((λ k, count_rows (filter (P k) rows)) <$> ks) !! i
  = Some (count_rows (filter (P k) rows)).
Proof. intros Hk. by rewrite list_lookup_fmap, Hk. Qed.

End counts_by_index.

(** * The claims *)

(** C1: in every state the server can be in, the scatter query on the
    range [low, high] and the selection [sel] answers with the points of
    exactly the records whose payload mass lies in [low, high], both ends
    included, and whose site is [sel] unless [sel] is "ALL"; the points
    carry the payload, outcome and booster category of these records as
    they are in the dataset, in the dataset's order; the frame is left as
    it was. *)
Theorem scatter_returns_rows_in_range observed rows others events sel low high :
  update_scatter_chart sel [low; high] (serve observed events (read_csv rows others))
  = (Some (Scatter (NumCol ((λ r, Some (payload_mass r)) <$> scatter_rows sel low high rows))
             (IntCol (outcome <$> scatter_rows sel low high rows))
             (StrCol (booster_category <$> scatter_rows sel low high rows))
             "Payload vs Launch Outcome"),
     serve observed events (read_csv rows others)).
Proof. apply update_scatter_chart_holds, served_holds. Qed.

(** C4: a payload range with [low > high] makes the scatter query answer
    with a figure without points; it does not raise. *)
Theorem scatter_empty_on_inverted_range observed rows others events sel low high :
  (high < low)%Q →
  (update_scatter_chart sel [low; high]
     (serve observed events (read_csv rows others))).1
  = Some (Scatter (NumCol []) (IntCol []) (StrCol []) "Payload vs Launch Outcome").
Proof.
  intros Hlt.
  rewrite (update_scatter_chart_holds _ rows) by apply served_holds.
  by rewrite scatter_rows_inverted.
Qed.

(** C9: the two row filters of the scatter query commute: filtering the
    frame by payload range and then by site gives the frame that filtering
    by site and then by payload range gives, and neither order raises. *)
Theorem scatter_filters_commute observed rows others events sel low high :
  filter_payload low high (serve observed events (read_csv rows others))
    ≫= filter_site sel
  = filter_site sel (serve observed events (read_csv rows others))
    ≫= filter_payload low high
  ∧ is_Some (filter_payload low high (serve observed events (read_csv rows others))
             ≫= filter_site sel).
Proof.
  pose proof (served_holds observed events rows others) as H.
  set (df := serve _ _ _) in *.
  pose proof (holds_boolean_index _ _
    (λ r, (low <= payload_mass r)%Q ∧ (payload_mass r <= high)%Q) H) as H1.
  pose proof (holds_boolean_index _ _ (λ r, launch_site r = sel) H) as H2.
  rewrite (filter_payload_holds _ _ _ _ H), (filter_site_holds _ _ _ H).
  cbn [mbind option_bind].
  rewrite (filter_site_holds _ _ _ H1), (filter_payload_holds _ _ _ _ H2).
  split; [|done]. f_equal.
  rewrite <- (select_fmap _ (λ r, bool_decide (launch_site r = sel))).
  rewrite <- (select_fmap _
    (λ r, bool_decide ((low <= payload_mass r)%Q ∧ (payload_mass r <= high)%Q))).
  by rewrite !boolean_index_twice, mask_and_comm.
Qed.

(** C10: running the insight callback a second time leaves the frame as
    the first run left it; the first run has written the bucket column,
    computed from the payload masses. *)
Theorem insight_charts_idempotent observed rows others events sel sel' :
  (update_insight_charts observed sel'
     (update_insight_charts observed sel
        (serve observed events (read_csv rows others))).2).2
  = (update_insight_charts observed sel
       (serve observed events (read_csv rows others))).2
  ∧ (update_insight_charts observed sel
       (serve observed events (read_csv rows others))).2 !! "Payload Range"
    = Some (CatCol labels (payload_bucket <$> (payload_mass <$> rows))).
Proof.
  pose proof (served_holds observed events rows others) as H.
  set (df := serve _ _ _) in *.
  rewrite (update_insight_charts_holds _ _ _ sel H). cbn [snd].
  rewrite (update_insight_charts_holds _ _ _ sel' (holds_insert _ _ _ H)). cbn [snd].
  split; [by rewrite insert_insert_eq|].
  rewrite lookup_insert_eq. unfold bucket_column. by rewrite <- list_fmap_compose.
Qed.

(** C5: whatever callbacks have run since the dataset was loaded, every
    column of the frame other than "Payload Range" is as it was loaded (none
    changed, none added, none removed), and "Payload Range" is either as it
    was loaded or the bucket column, which is computed from the payload
    masses alone.  So when the file has no "Payload Range" column, every
    loaded column is still there unchanged. *)
Theorem dataset_columns_preserved observed rows others events :
  (∀ c, c ≠ "Payload Range" →
     serve observed events (read_csv rows others) !! c = read_csv rows others !! c)
  ∧ (serve observed events (read_csv rows others) !! "Payload Range"
       = read_csv rows others !! "Payload Range"
     ∨ serve observed events (read_csv rows others) !! "Payload Range"
       = Some (CatCol labels (payload_bucket <$> (payload_mass <$> rows))))
  ∧ (others !! "Payload Range" = None →
     ∀ c s, read_csv rows others !! c = Some s →
            serve observed events (read_csv rows others) !! c = Some s).
Proof.
  pose proof (serve_state observed events _ _ (holds_read_csv rows others)) as Hst.
  assert (∀ c, c ≠ "Payload Range" →
    serve observed events (read_csv rows others) !! c = read_csv rows others !! c)
    as Hframe.
  { intros c Hc. destruct Hst as [->| ->]; [done|]. by rewrite lookup_insert_ne. }
  split; [done|]. split.
  - destruct Hst as [->| ->]; [by left|right].
    rewrite lookup_insert_eq. unfold bucket_column. by rewrite <- list_fmap_compose.
  - intros Hnone c s Hcs. destruct (decide (c = "Payload Range")) as [->|Hc].
    + unfold read_csv in Hcs. rewrite !lookup_insert_ne in Hcs by done. congruence.
    + by rewrite Hframe.
Qed.

(** C8: the answer of a callback is a function of the records and of the
    selection: it is the same after any two histories of callbacks, and
    whatever the further columns of the file. *)
Theorem views_independent_of_history observed rows others others' events events' e :
  (fire observed e (serve observed events (read_csv rows others))).1
  = (fire observed e (serve observed events' (read_csv rows others'))).1
  ∧ (fire observed e (serve observed events (read_csv rows others))).1
    = view observed e rows.
Proof.
  rewrite !(fire_holds _ _ _ rows) by apply served_holds. done.
Qed.

(** C2, as the code has it: the insight callback writes, for every record,
    the bucket of its payload mass; the four buckets are the intervals
    (0, 2500], (2500, 5000], (5000, 7500] and (7500, 10000], each closed on
    the right and open on the left, the first one too; a payload mass gets
    no bucket exactly when it is 0 or less, or more than 10000. *)
Theorem payload_buckets_half_open observed rows others events sel x :
  (update_insight_charts observed sel
     (serve observed events (read_csv rows others))).2 !! "Payload Range"
  = Some (CatCol labels (payload_bucket <$> (payload_mass <$> rows)))
  ∧ (payload_bucket x = Some "0-2500" ↔ (0 < x)%Q ∧ (x <= 2500)%Q)
  ∧ (payload_bucket x = Some "2500-5000" ↔ (2500 < x)%Q ∧ (x <= 5000)%Q)
  ∧ (payload_bucket x = Some "5000-7500" ↔ (5000 < x)%Q ∧ (x <= 7500)%Q)
  ∧ (payload_bucket x = Some "7500-10000" ↔ (7500 < x)%Q ∧ (x <= 10000)%Q)
  ∧ (payload_bucket x = None ↔ (x <= 0)%Q ∨ (10000 < x)%Q)
  ∧ (payload_bucket x = None ∨ ∃ l, l ∈ labels ∧ payload_bucket x = Some l).
Proof.
  split; [apply update_insight_charts_column|].
  destruct (payload_bucket_cases x)
    as [[? ->]|[(?&?&->)|[(?&?&->)|[(?&?&->)|[(?&?&->)|[? ->]]]]]];
    repeat split; try (intros [= <-]); try (intros [? ?]); try (intros [?|?]);
    try done; try lra; try (by right); try (by left);
    right; eexists; (split; [|done]); unfold labels; set_solver.
Qed.

(** C2 as stated fails at payload mass 0, which lies in [0, 10000]: the
    first bucket does not include it, and its record gets no bucket. *)
Lemma zero_payload_gets_no_bucket :
  payload_bucket 0 = None
  ∧ (update_insight_charts false "ALL"
       (read_csv [mkLaunch "CCAFS LC-40" 0 0 "v1.0"] ∅)).2 !! "Payload Range"
    = Some (CatCol labels [None])
  ∧ ¬ (∀ x, (0 <= x)%Q ∧ (x <= 10000)%Q →
            ∃ l, l ∈ labels ∧ payload_bucket x = Some l).
Proof.
  split; [by vm_compute|]. split; [by vm_compute|].
  intros H. destruct (H 0%Q) as (l & _ & Hl); [by split|].
  by vm_compute in Hl.
Qed.

(** C7: when every outcome of the dataset is 0 or 1, the insight callback
    answers with three success-rate charts (per site, per payload bucket,
    per booster category).  Each chart has its groups once each and one
    rate per group; the rate beside a group is the mean outcome of the
    records of that group; every record falls in a group of the site chart
    and of the booster chart, and in the group of its bucket when it has
    one.  Every rate lies in [0, 1]: a group with a record shows a rate
    within [0, 1], and a group that shows no rate (NaN) has no record. *)
Theorem success_rates_within_unit_interval observed rows others events sel :
  binary rows →
  ∃ fig ks2 ys2 (ks3 : list string) ys3 ks4 ys4,
    (update_insight_charts observed sel
       (serve observed events (read_csv rows others))).1
    = Some (fig,
            Bar (StrCol ks2) (NumCol ys2) "Launch Success Rate by Site",
            Bar (CatCol labels (Some <$> ks3)) (NumCol ys3)
              "Launch Success Rate by Payload Range",
            Bar (StrCol ks4) (NumCol ys4) "Launch Success Rate by Booster Version")
    ∧ (∀ v, Some v ∈ (ys2 ++ ys3 ++ ys4)%list → (0 <= v)%Q ∧ (v <= 1)%Q)
    ∧ (∀ r, r ∈ rows →
         launch_site r ∈ ks2 ∧ booster_category r ∈ ks4 ∧
         ∀ k, payload_bucket (payload_mass r) = Some k → k ∈ ks3)
    ∧ (∀ i k r, ks2 !! i = Some k → ys2 !! i = Some None → r ∈ rows →
         launch_site r ≠ k)
    ∧ (∀ i k r, ks3 !! i = Some k → ys3 !! i = Some None → r ∈ rows →
         payload_bucket (payload_mass r) ≠ Some k)
    ∧ (∀ i k r, ks4 !! i = Some k → ys4 !! i = Some None → r ∈ rows →
         booster_category r ≠ k)
    ∧ (NoDup ks2 ∧ length ys2 = length ks2)
    ∧ (NoDup ks3 ∧ length ys3 = length ks3)
    ∧ (NoDup ks4 ∧ length ys4 = length ks4)
    ∧ (∀ i k, ks2 !! i = Some k →
         ys2 !! i = Some (success_rate (filter (λ r, launch_site r = k) rows)))
    ∧ (∀ i k, ks3 !! i = Some k →
         ys3 !! i = Some (success_rate
                            (filter (λ r, payload_bucket (payload_mass r) = Some k) rows)))
    ∧ (∀ i k, ks4 !! i = Some k →
         ys4 !! i = Some (success_rate (filter (λ r, booster_category r = k) rows)))
    ∧ (∀ i k r, ks2 !! i = Some k → r ∈ rows → launch_site r = k →
         ∃ v, ys2 !! i = Some (Some v) ∧ (0 <= v)%Q ∧ (v <= 1)%Q)
    ∧ (∀ i k r, ks3 !! i = Some k → r ∈ rows →
         payload_bucket (payload_mass r) = Some k →
         ∃ v, ys3 !! i = Some (Some v) ∧ (0 <= v)%Q ∧ (v <= 1)%Q)
    ∧ (∀ i k r, ks4 !! i = Some k → r ∈ rows → booster_category r = k →
         ∃ v, ys4 !! i = Some (Some v) ∧ (0 <= v)%Q ∧ (v <= 1)%Q).
Proof.
  intros Hb.
  rewrite (update_insight_charts_holds _ _ rows) by apply served_holds.
  unfold insight_figures, site_rate_figure, payload_rate_figure, booster_rate_figure.
  cbn [fst]. eexists _, _, _, _, _, _, _. split; [reflexivity|].
  split.
  { intros v Hv. rewrite !elem_of_app in Hv.
    destruct Hv as [Hv|[Hv|Hv]].
    + eapply (rates_bounded (λ k r, launch_site r = k)); [exact Hb|exact Hv].
    + eapply (rates_bounded (λ k r, payload_bucket (payload_mass r) = Some k));
        [exact Hb|exact Hv].
    + eapply (rates_bounded (λ k r, booster_category r = k)); [exact Hb|exact Hv]. }
  split.
  { intros r Hr. split; [|split].
    + apply elem_of_sorted_keys. by apply list_elem_of_fmap_2.
    + apply elem_of_sorted_keys. by apply list_elem_of_fmap_2.
    + intros k Hk. by eapply elem_of_bucket_keys. }
  split.
  { intros i k r. apply (rates_missing (λ k r, launch_site r = k)). }
  split.
  { intros i k r.
    apply (rates_missing (λ k r, payload_bucket (payload_mass r) = Some k)). }
  split.
  { intros i k r. apply (rates_missing (λ k r, booster_category r = k)). }
  split.
  { split; [apply NoDup_sorted_keys|by rewrite length_fmap]. }
  split.
  { split; [apply NoDup_bucket_keys|by rewrite length_fmap]. }
  split.
  { split; [apply NoDup_sorted_keys|by rewrite length_fmap]. }
  split.
  { intros i k Hk. exact (rates_at (λ k r, launch_site r = k) rows _ i k Hk). }
  split.
  { intros i k Hk.
    exact (rates_at (λ k r, payload_bucket (payload_mass r) = Some k) rows _ i k Hk). }
  split.
  { intros i k Hk. exact (rates_at (λ k r, booster_category r = k) rows _ i k Hk). }
  split.
  { intros i k r Hk Hr Hg.
    exact (rates_of_nonempty (λ k r, launch_site r = k) rows _ i k r Hb Hk Hr Hg). }
  split.
  { intros i k r Hk Hr Hg.
    exact (rates_of_nonempty (λ k r, payload_bucket (payload_mass r) = Some k)
             rows _ i k r Hb Hk Hr Hg). }
  intros i k r Hk Hr Hg.
  exact (rates_of_nonempty (λ k r, booster_category r = k) rows _ i k r Hb Hk Hr Hg).
Qed.

(** C6: the two site charts of the insight callback do not depend on the
    selected site.  The first holds, for every site with a successful
    launch, the number of records of that site with outcome 1 (and no other
    site); the second holds, for every site of the dataset, the mean
    outcome of the records of that site.  Both range over all records.
    Each chart is grouped by site: its sites come once each, in ascending
    order, with one value per site, and the value beside a site is the
    count, or the mean, of that site. *)
Theorem site_aggregates_ignore_selection observed rows others events sel sel' :
  (update_insight_charts observed sel
     (serve observed events (read_csv rows others))).1
  = (update_insight_charts observed sel'
       (serve observed events (read_csv rows others))).1
  ∧ ∃ ks ns ks' ys fig3 fig4,
      (update_insight_charts observed sel
         (serve observed events (read_csv rows others))).1
      = Some (Bar (StrCol ks) (IntCol ns) "Successful Launches by Site",
              Bar (StrCol ks') (NumCol ys) "Launch Success Rate by Site",
              fig3, fig4)
      ∧ (∀ s, (list_to_map (zip ks ns) : gmap string Z) !! s
              = if decide (0 < count_rows
                             (filter (λ r, launch_site r = s ∧ outcome r = 1%Z) rows))%Z
                then Some (count_rows
                             (filter (λ r, launch_site r = s ∧ outcome r = 1%Z) rows))
                else None)
      ∧ (∀ s, (list_to_map (zip ks' ys) : gmap string (option Q)) !! s
              = if decide (s ∈ launch_site <$> rows)
                then Some (success_rate (filter (λ r, launch_site r = s) rows))
                else None)
      ∧ (Sorted String.le ks ∧ NoDup ks ∧ length ns = length ks)
      ∧ (Sorted String.le ks' ∧ NoDup ks' ∧ length ys = length ks')
      ∧ (∀ i s, ks !! i = Some s →
           ns !! i = Some (count_rows
                             (filter (λ r, launch_site r = s ∧ outcome r = 1%Z) rows)))
      ∧ (∀ i s, ks' !! i = Some s →
           ys !! i = Some (success_rate (filter (λ r, launch_site r = s) rows))).
Proof.
  rewrite !(update_insight_charts_holds _ _ rows) by apply served_holds.
  split; [done|].
  unfold insight_figures, site_success_figure, site_rate_figure. cbn [fst].
  eexists _, _, _, _, _, _. split; [reflexivity|].
  assert (∀ A B C D E F : Prop, (A ∧ B) → C → D → E → F → A ∧ B ∧ C ∧ D ∧ E ∧ F)
    as Hconj by tauto.
  apply Hconj; clear Hconj.
  2:{ repeat split; [apply Sorted_sorted_keys|apply NoDup_sorted_keys|
                     by rewrite length_fmap]. }
  2:{ repeat split; [apply Sorted_sorted_keys|apply NoDup_sorted_keys|
                     by rewrite length_fmap]. }
  2:{ intros i s Hs.
      rewrite (counts_at (λ k r, launch_site r = k) (successes rows) _ i s Hs).
      unfold successes. by rewrite list_filter_filter. }
  2:{ intros i s Hs.
      exact (rates_at (λ k r, launch_site r = k) rows _ i s Hs). }
  split; intros s.
  - rewrite lookup_zip_fmap by apply NoDup_sorted_keys.
    unfold successes. rewrite list_filter_filter.
    destruct (decide (s ∈ _)) as [Hs|Hs];
      rewrite elem_of_sorted_keys, list_elem_of_fmap in Hs.
    + rewrite decide_True; [done|]. apply count_rows_pos.
      destruct Hs as (r & -> & Hr). apply list_elem_of_filter in Hr as [Ho Hr].
      by exists r.
    + rewrite decide_False; [done|]. rewrite count_rows_pos.
      intros (r & Hr & <- & Ho). apply Hs. exists r. split; [done|].
      by apply list_elem_of_filter.
  - rewrite lookup_zip_fmap by apply NoDup_sorted_keys.
    destruct (decide (s ∈ sorted_keys _)) as [Hs|Hs];
      rewrite elem_of_sorted_keys in Hs.
    + by rewrite decide_True.
    + by rewrite decide_False.
Qed.

(** C3: in every state of the server the pie query answers with a figure
    whose slices are as follows.  For the selection "ALL", given that the
    outcomes are 0 or 1, there is one slice per site of the dataset, its
    value is the number of records of that site with outcome 1, and the
    values sum to the number of records with outcome 1.  For a site, there
    is one slice per outcome class present at that site, its value is the
    number of records of that site with that outcome, and the values sum to
    the number of records of the site. *)
Theorem pie_slices_are_counts observed rows others events sel :
  ∃ fig slices,
    (update_pie_chart sel (serve observed events (read_csv rows others))).1 = Some fig
    ∧ pie_slices fig = Some slices
    ∧ NoDup slices.*1
    ∧ (sel = "ALL" → binary rows →
         (∀ l n, (l, n) ∈ slices ↔
            ∃ s, l = LStr s ∧ s ∈ launch_site <$> rows ∧
                 n = count_rows (filter (λ r, launch_site r = s ∧ outcome r = 1%Z) rows))
         ∧ Zsum slices.*2 = count_rows (filter (λ r, outcome r = 1%Z) rows))
    ∧ (sel ≠ "ALL" →
         (∀ l n, (l, n) ∈ slices ↔
            ∃ c, l = LInt c ∧
                 c ∈ outcome <$> filter (λ r, launch_site r = sel) rows ∧
                 n = count_rows (filter (λ r, launch_site r = sel ∧ outcome r = c) rows))
         ∧ Zsum slices.*2 = count_rows (filter (λ r, launch_site r = sel) rows)).
Proof.
  rewrite (update_pie_chart_holds _ rows) by apply served_holds. cbn [fst].
  destruct (decide (sel = "ALL")) as [->|Hsel].
  - eexists _, _. split; [reflexivity|]. split; [apply pie_slices_all|].
    split; [rewrite slices_by_keys; apply NoDup_remove_dups|].
    split; [|done]. intros _ Hb. split.
    + intros l n. rewrite elem_of_slices_by, list_elem_of_fmap. split.
      * intros [(r & -> & Hr) ->]. exists (launch_site r).
        split; [done|]. split; [by apply list_elem_of_fmap_2|].
        rewrite Zsum_binary by by apply binary_filter.
        by rewrite successes_at_label.
      * intros (s & -> & Hs & ->). apply list_elem_of_fmap in Hs as (r & -> & Hr).
        split; [by exists r|].
        rewrite Zsum_binary by by apply binary_filter.
        by rewrite successes_at_label.
    + rewrite slices_by_sum. by apply Zsum_binary.
  - eexists _, _. split; [reflexivity|]. split; [by apply pie_slices_site|].
    split; [rewrite slices_by_keys; apply NoDup_remove_dups|].
    split; [done|]. intros _. split.
    + intros l n. rewrite elem_of_slices_by, list_elem_of_fmap, Zsum_ones. split.
      * intros [(r & -> & Hr) ->]. exists (outcome r).
        split; [done|]. split; [by apply list_elem_of_fmap_2|].
        by rewrite class_at_label.
      * intros (c & -> & Hc & ->). apply list_elem_of_fmap in Hc as (r & -> & Hr).
        split; [by exists r|]. by rewrite class_at_label.
    + by rewrite slices_by_sum, Zsum_ones.
Qed.

(** * Witnesses and scenarios *)

Lemma binary_scenario : binary scenario.
Proof. unfold binary. apply (bool_decide_unpack _). vm_compute. exact I. Defined.

Lemma scatter_empty_on_inverted_range_witness :
  (2000 < 5000)%Q
  ∧ (update_scatter_chart "ALL" [5000; 2000]%Q
       (serve false [InsightCharts "ALL"] (read_csv scenario ∅))).1
    = Some (Scatter (NumCol []) (IntCol []) (StrCol []) "Payload vs Launch Outcome").
Proof.
  split; [reflexivity|].
  apply (scatter_empty_on_inverted_range false scenario ∅ [InsightCharts "ALL"]
           "ALL" 5000 2000).
  reflexivity.
Defined.

Lemma dataset_columns_preserved_witness :
  (∅ : DataFrame) !! "Payload Range" = None
  ∧ ∀ c s, read_csv scenario ∅ !! c = Some s →
           serve false [InsightCharts "ALL"; PieChart "A"] (read_csv scenario ∅) !! c
           = Some s.
Proof.
  split; [reflexivity|].
  apply (dataset_columns_preserved false scenario ∅ [InsightCharts "ALL"; PieChart "A"]).
  reflexivity.
Defined.

Lemma success_rates_within_unit_interval_witness :
  binary scenario
  ∧ ∃ fig ks2 ys2 (ks3 : list string) ys3 ks4 ys4,
      (update_insight_charts false "ALL" (serve false [] (read_csv scenario ∅))).1
      = Some (fig,
              Bar (StrCol ks2) (NumCol ys2) "Launch Success Rate by Site",
              Bar (CatCol labels (Some <$> ks3)) (NumCol ys3)
                "Launch Success Rate by Payload Range",
              Bar (StrCol ks4) (NumCol ys4) "Launch Success Rate by Booster Version")
      ∧ (∀ v, Some v ∈ (ys2 ++ ys3 ++ ys4)%list → (0 <= v)%Q ∧ (v <= 1)%Q).
Proof.
  split; [exact binary_scenario|].
  destruct (success_rates_within_unit_interval false scenario ∅ [] "ALL" binary_scenario)
    as (fig & ks2 & ys2 & ks3 & ys3 & ks4 & ys4 & Hfig & Hv & _).
  by exists fig, ks2, ys2, ks3, ys3, ks4, ys4.
Defined.

Lemma pie_slices_are_counts_witness :
  "ALL" = "ALL" ∧ binary scenario
  ∧ ∃ fig slices,
      (update_pie_chart "ALL" (serve false [] (read_csv scenario ∅))).1 = Some fig
      ∧ pie_slices fig = Some slices
      ∧ Zsum slices.*2 = 2%Z.
Proof.
  split; [reflexivity|]. split; [exact binary_scenario|].
  destruct (pie_slices_are_counts false scenario ∅ [] "ALL")
    as (fig & slices & Hfig & Hslices & _ & Hall & _).
  destruct (Hall eq_refl binary_scenario) as [_ Hsum].
  exists fig, slices. by rewrite Hsum.
Defined.

(** The scenarios of the specification, on its three-record dataset. *)

Example scenario_all_sites :
  (update_scatter_chart "ALL" [0; 10000]%Q (read_csv scenario ∅)).1
  = Some (scatter_figure scenario)
  ∧ (update_insight_charts false "ALL" (read_csv scenario ∅)).1
    = Some (Bar (StrCol ["A"; "B"]) (IntCol [1; 1]%Z) "Successful Launches by Site",
            Bar (StrCol ["A"; "B"]) (NumCol [Some (1 # 2)%Q; Some 1%Q])
              "Launch Success Rate by Site",
            payload_rate_figure false scenario, booster_rate_figure scenario).
Proof. by vm_compute. Qed.

Example scenario_site_B :
  (update_pie_chart "B" (read_csv scenario ∅)).1 ≫= pie_slices = Some [(LInt 1, 1%Z)]
  ∧ (update_scatter_chart "B" [0; 10000]%Q (read_csv scenario ∅)).1
    = Some (scatter_figure [mkLaunch "B" 3000 1 "FT"]).
Proof. by vm_compute. Qed.

Example scenario_range_2000_5000 :
  (update_scatter_chart "ALL" [2000; 5000]%Q (read_csv scenario ∅)).1
  = Some (scatter_figure [mkLaunch "B" 3000 1 "FT"]).
Proof. by vm_compute. Qed.

(** * Further properties of the program *)

(** ** The dropdown *)

Lemma elem_of_unique l s : s ∈ unique l ↔ s ∈ l.
Proof.
  induction l as [|x l IH]; [done|]. cbn [unique].
  rewrite !elem_of_cons, list_elem_of_filter, IH.
  destruct (decide (s = x)); intuition.
Qed.

Lemma NoDup_unique l : NoDup (unique l).
Proof.
  induction l as [|x l IH]; [constructor|]. cbn [unique].
  apply NoDup_cons. split; [|by apply NoDup_filter].
  rewrite list_elem_of_filter. by intros [? _].
Qed.

Lemma launch_sites_read_csv rows others :
  launch_sites (read_csv rows others) = Some (unique (launch_site <$> rows)).
Proof.
  unfold launch_sites. by rewrite (proj1 (holds_read_csv rows others)).
Qed.

(** X1: the dropdown offers "ALL" first and then the sites of the dataset:
    each offered once, under its own name, and every site of a record is
    offered. *)
Theorem dropdown_offers_each_site_once rows others :
  ∃ sites,
    dropdown_options (read_csv rows others)
    = Some (("All Sites", "ALL") :: ((λ site, (site, site)) <$> sites))
    ∧ NoDup sites
    ∧ ∀ s, s ∈ sites ↔ ∃ r, r ∈ rows ∧ launch_site r = s.
Proof.
  exists (unique (launch_site <$> rows)).
  unfold dropdown_options. rewrite launch_sites_read_csv. split; [done|].
  split; [apply NoDup_unique|]. intros s.
  rewrite elem_of_unique, list_elem_of_fmap.
  split; intros (r & ? & ?); by exists r.
Qed.

Lemma pie_slices_total_site sel rows :
  sel ≠ "ALL" →
  ∃ slices, pie_slices (pie_figure sel rows) = Some slices
            ∧ Zsum slices.*2 = count_rows (filter (λ r, launch_site r = sel) rows).
Proof.
  intros Hsel. eexists. split; [by apply pie_slices_site|].
  by rewrite slices_by_sum, Zsum_ones.
Qed.

(** X2: every site the dropdown offers, unless it is called "ALL", has
    records: selecting it gives a pie chart whose slices add up to the
    number of records of that site, which is at least one. *)
Theorem offered_site_has_records observed rows others events sites label value :
  dropdown_options (read_csv rows others) = Some (("All Sites", "ALL") :: sites) →
  (label, value) ∈ sites →
  value ≠ "ALL" →
  ∃ fig slices,
    (update_pie_chart value (serve observed events (read_csv rows others))).1 = Some fig
    ∧ pie_slices fig = Some slices
    ∧ Zsum slices.*2 = count_rows (filter (λ r, launch_site r = value) rows)
    ∧ (1 <= Zsum slices.*2)%Z.
Proof.
  unfold dropdown_options. rewrite launch_sites_read_csv. cbn [mbind option_bind].
  intros [= <-] Hin Hne.
  apply list_elem_of_fmap in Hin as (s & [= -> ->] & Hs).
  apply elem_of_unique, list_elem_of_fmap in Hs as (r & Hr & Hin).
  rewrite (update_pie_chart_holds _ rows) by apply served_holds. cbn [fst].
  destruct (pie_slices_total_site s rows Hne) as (slices & Hsl & Hsum).
  exists (pie_figure s rows), slices. repeat split; try done.
  rewrite Hsum.
  assert (0 < count_rows (filter (λ r, launch_site r = s) rows))%Z; [|lia].
  apply count_rows_pos. by exists r.
Qed.

(** ** The slider *)






(** X4: the scatter callback answers exactly when the payload range it is
    given has two bounds; with any other number of bounds it raises.  Either
    way it leaves the frame as it found it. *)
Theorem scatter_needs_two_bounds observed rows others events sel range :
  (is_Some (update_scatter_chart sel range
              (serve observed events (read_csv rows others))).1
   ↔ length range = 2)
  ∧ (update_scatter_chart sel range
       (serve observed events (read_csv rows others))).2
    = serve observed events (read_csv rows others).
Proof.
  destruct (unpack2 range) as [[low high]|] eqn:Hr.
  - apply unpack2_Some in Hr as ->.
    rewrite (update_scatter_chart_holds _ rows) by apply served_holds.
    cbn [fst snd length]. by split; [split|].
  - rewrite (update_scatter_chart_raises _ _ _ Hr). cbn [fst snd].
    split; [|done]. split; [by intros [? ?]|].
    intros Hlen. by destruct range as [|a [|b [|c range]]].
Qed.

(** X5: selecting a site that no record has is no error: the pie chart has
    no slice and the scatter chart has no point. *)
Theorem absent_site_gives_empty_charts observed rows others events sel low high :
  sel ≠ "ALL" →
  (∀ r, r ∈ rows → launch_site r ≠ sel) →
  (update_pie_chart sel (serve observed events (read_csv rows others))).1
  = Some (Pie (IntCol []) None ("Success vs Failure for site " +:+ sel))
  ∧ pie_slices (Pie (IntCol []) None ("Success vs Failure for site " +:+ sel)) = Some []
  ∧ (update_scatter_chart sel [low; high]
       (serve observed events (read_csv rows others))).1
    = Some (Scatter (NumCol []) (IntCol []) (StrCol []) "Payload vs Launch Outcome").
Proof.
  intros Hsel Habsent.
  assert (filter (λ r, launch_site r = sel) rows = []) as Hnone.
  { induction rows as [|r rows IH]; [done|].
    rewrite filter_cons_False by (apply Habsent; left).
    apply IH. intros r' Hr'. apply Habsent. by right. }
  rewrite (update_pie_chart_holds _ rows) by apply served_holds.
  rewrite (update_scatter_chart_holds _ rows) by apply served_holds.
  unfold pie_figure. rewrite bool_decide_false by done. rewrite Hnone.
  split; [done|]. split; [done|]. cbn [fst].
  replace (scatter_rows sel low high rows) with (@nil LaunchRecord); [done|].
  symmetry. unfold scatter_rows.
  induction rows as [|r rows IH]; [done|].
  rewrite filter_cons_False.
  - apply IH.
    + intros r' Hr'. apply Habsent. by right.
    + rewrite filter_cons_False in Hnone; [done|]. apply Habsent. left.
  - intros [_ [?|?]]; [done|]. by apply (Habsent r); [left|].
Qed.

(** ** The bar charts *)

(** X6: the booster chart of the insight callback has one bar per booster
    category of the dataset, in ascending order of the category names; the
    bar of a category is the mean outcome of the records of that category,
    whatever site is selected. *)
Theorem booster_rates_by_category observed rows others events sel :
  ∃ fig1 fig2 fig3 ks ys,
    (update_insight_charts observed sel
       (serve observed events (read_csv rows others))).1
    = Some (fig1, fig2, fig3,
            Bar (StrCol ks) (NumCol ys) "Launch Success Rate by Booster Version")
    ∧ Sorted String.le ks
    ∧ NoDup ks
    ∧ ∀ b, (list_to_map (zip ks ys) : gmap string (option Q)) !! b
           = if decide (b ∈ booster_category <$> rows)
             then Some (success_rate (filter (λ r, booster_category r = b) rows))
             else None.
Proof.
  rewrite (update_insight_charts_holds _ _ rows) by apply served_holds.
  unfold insight_figures, booster_rate_figure. cbn [fst].
  eexists _, _, _, _, _. split; [reflexivity|].
  split; [apply Sorted_sorted_keys|]. split; [apply NoDup_sorted_keys|].
  intros b. rewrite lookup_zip_fmap by apply NoDup_sorted_keys.
  destruct (decide (b ∈ sorted_keys _)) as [Hb|Hb];
    rewrite elem_of_sorted_keys in Hb.
  - by rewrite decide_True.
  - by rewrite decide_False.
Qed.

(** X7: the payload chart of the insight callback has its bars in the order
    of the four bucket labels, each at most once: all four when [groupby]
    keeps the categories without records, else those with a record.  The bar
    of a bucket is the mean outcome of the records [pd.cut] has put in that
    bucket (NaN when there is none). *)
Theorem payload_rates_by_bucket observed rows others events sel :
  ∃ fig1 fig2 fig4 ks ys,
    (update_insight_charts observed sel
       (serve observed events (read_csv rows others))).1
    = Some (fig1, fig2,
            Bar (CatCol labels (Some <$> ks)) (NumCol ys)
              "Launch Success Rate by Payload Range",
            fig4)
    ∧ ks `sublist_of` labels
    ∧ ∀ k, (list_to_map (zip ks ys) : gmap string (option Q)) !! k
           = if decide (k ∈ labels ∧
                        (observed = true →
                         Some k ∈ (λ r, payload_bucket (payload_mass r)) <$> rows))
             then Some (success_rate
                          (filter (λ r, payload_bucket (payload_mass r) = Some k) rows))
             else None.
Proof.
  rewrite (update_insight_charts_holds _ _ rows) by apply served_holds.
  unfold insight_figures, payload_rate_figure. cbn [fst].
  eexists _, _, _, _, _. split; [reflexivity|]. split.
  { unfold bucket_keys. destruct observed; [apply sublist_filter|done]. }
  intros k. rewrite lookup_zip_fmap by apply NoDup_bucket_keys.
  assert (k ∈ bucket_keys observed rows
          ↔ k ∈ labels ∧ (observed = true →
              Some k ∈ (λ r, payload_bucket (payload_mass r)) <$> rows)) as Hk.
  { unfold bucket_keys. destruct observed.
    - rewrite list_elem_of_filter. tauto.
    - split; [by intros ?; split|by intros [? _]]. }
  destruct (decide (k ∈ bucket_keys observed rows)) as [Hin|Hin].
  - by rewrite decide_True by by apply Hk.
  - rewrite decide_False; [done|]. by rewrite <- Hk.
Qed.

(** X8: the bars of the two site charts come in ascending order of the site
    names, each site once, and every site of the success-count chart is a
    site of the success-rate chart. *)
Theorem site_charts_sorted observed rows others events sel :
  ∃ ks ns ks' ys fig3 fig4,
    (update_insight_charts observed sel
       (serve observed events (read_csv rows others))).1
    = Some (Bar (StrCol ks) (IntCol ns) "Successful Launches by Site",
            Bar (StrCol ks') (NumCol ys) "Launch Success Rate by Site",
            fig3, fig4)
    ∧ Sorted String.le ks ∧ NoDup ks ∧ length ns = length ks
    ∧ Sorted String.le ks' ∧ NoDup ks' ∧ length ys = length ks'
    ∧ ks ⊆ ks'.
Proof.
  rewrite (update_insight_charts_holds _ _ rows) by apply served_holds.
  unfold insight_figures, site_success_figure, site_rate_figure. cbn [fst].
  eexists _, _, _, _, _, _. split; [reflexivity|].
  repeat split;
    try apply Sorted_sorted_keys; try apply NoDup_sorted_keys;
    try by rewrite length_fmap.
  intros s. rewrite !elem_of_sorted_keys, !list_elem_of_fmap.
  intros (r & -> & Hr). exists r. split; [done|].
  unfold successes in Hr. by apply list_elem_of_filter in Hr as [_ ?].
Qed.

Lemma Qsum_inject_Z (zs : list Z) : (Qsum (inject_Z <$> zs) == inject_Z (Zsum zs))%Q.
Proof.
  induction zs as [|z zs IH]; [reflexivity|].
  rewrite fmap_cons, Zsum_cons, inject_Z_plus, <- IH. reflexivity.
Qed.

Lemma success_rate_share rows :
  binary rows → rows ≠ [] →
  ∃ v, success_rate rows = Some v
       ∧ (v == inject_Z (count_rows (successes rows)) / inject_Z (count_rows rows))%Q.
Proof.
  intros Hb Hne. destruct rows as [|r rows]; [done|].
  eexists. split; [reflexivity|].
  rewrite <- (Zsum_binary _ Hb), <- Qsum_inject_Z.
  unfold count_rows. rewrite <- list_fmap_compose, length_fmap. reflexivity.
Qed.

Lemma count_rows_nonneg rows : (0 <= count_rows rows)%Z.
Proof. unfold count_rows. lia. Qed.

Lemma share_zero (n m : Z) :
  (0 < m)%Z → ((inject_Z n / inject_Z m == 0)%Q ↔ n = 0%Z).
Proof.
  intros Hm. destruct m as [|p|p]; try lia.
  unfold Qeq, Qdiv, Qmult, Qinv, inject_Z. cbn. lia.
Qed.

(** X9: with outcomes 0 or 1, the rate the success-rate chart shows for a
    site is the site's number of successful launches divided by its number
    of launches; and the sites missing from the success-count chart are
    those whose rate is 0: a site without success gets no bar there, not a
    bar of height 0. *)
Theorem site_rate_is_share_of_successes observed rows others events sel :
  binary rows →
  ∃ ks ns ks' ys fig3 fig4,
    (update_insight_charts observed sel
       (serve observed events (read_csv rows others))).1
    = Some (Bar (StrCol ks) (IntCol ns) "Successful Launches by Site",
            Bar (StrCol ks') (NumCol ys) "Launch Success Rate by Site",
            fig3, fig4)
    ∧ ∀ s, s ∈ launch_site <$> rows →
        ∃ v, (list_to_map (zip ks' ys) : gmap string (option Q)) !! s = Some (Some v)
             ∧ (v == inject_Z (count_rows
                                 (filter (λ r, launch_site r = s ∧ outcome r = 1%Z) rows))
                     / inject_Z (count_rows (filter (λ r, launch_site r = s) rows)))%Q
             ∧ ((list_to_map (zip ks ns) : gmap string Z) !! s = None ↔ (v == 0)%Q).
Proof.
  intros Hb.
  rewrite (update_insight_charts_holds _ _ rows) by apply served_holds.
  unfold insight_figures, site_success_figure, site_rate_figure. cbn [fst].
  eexists _, _, _, _, _, _. split; [reflexivity|]. intros s Hs.
  assert (0 < count_rows (filter (λ r, launch_site r = s) rows))%Z as Hpos.
  { apply count_rows_pos. apply list_elem_of_fmap in Hs as (r & -> & Hr).
    by exists r. }
  destruct (success_rate_share (filter (λ r, launch_site r = s) rows))
    as (v & Hv & Hshare).
  { by apply binary_filter. }
  { intros Hnil. rewrite Hnil in Hpos. unfold count_rows in Hpos.
    cbn [length] in Hpos. lia. }
  assert (successes (filter (λ r, launch_site r = s) rows)
          = filter (λ r, launch_site r = s ∧ outcome r = 1%Z) rows) as Hsucc.
  { unfold successes. rewrite list_filter_filter. apply list_filter_iff.
    intros r. tauto. }
  rewrite Hsucc in Hshare.
  exists v. split; [|split; [done|]].
  - rewrite lookup_zip_fmap by apply NoDup_sorted_keys.
    rewrite decide_True by by apply elem_of_sorted_keys. by rewrite Hv.
  - rewrite Hshare, (share_zero _ _ Hpos).
    rewrite lookup_zip_fmap by apply NoDup_sorted_keys.
    pose proof (count_rows_nonneg
      (filter (λ r, launch_site r = s ∧ outcome r = 1%Z) rows)) as Hnn.
    destruct (decide (s ∈ _)) as [Hin|Hin];
      rewrite elem_of_sorted_keys, list_elem_of_fmap in Hin.
    + split; [done|]. intros Hzero. exfalso.
      assert (0 < count_rows
                (filter (λ r, launch_site r = s ∧ outcome r = 1%Z) rows))%Z; [|lia].
      apply count_rows_pos. destruct Hin as (r & -> & Hr).
      unfold successes in Hr. apply list_elem_of_filter in Hr as [? ?].
      by exists r.
    + split; [intros _|done].
      destruct (decide (0 < count_rows
        (filter (λ r, launch_site r = s ∧ outcome r = 1%Z) rows))%Z) as [Hp|Hp]; [|lia].
      exfalso. apply Hin. apply count_rows_pos in Hp as (r & Hr & <- & Ho).
      exists r. split; [done|]. unfold successes. by apply list_elem_of_filter.
Qed.

(** ** The scatter chart *)

Lemma filter_sublist_impl {A} (P R : A → Prop)
    `{!∀ x, Decision (P x)} `{!∀ x, Decision (R x)} (l : list A) :
  (∀ x, P x → R x) → filter P l `sublist_of` filter R l.
Proof.
  intros HPR.
  replace (filter P l) with (filter P (filter R l)); [apply sublist_filter|].
  rewrite list_filter_filter. apply list_filter_iff. intros x. split; [tauto|auto].
Qed.

(** X10: the scatter chart only gains points when the payload range is
    widened, and the chart of a site only shows points that the chart of
    "ALL" shows for the same range; the points shown are records of the
    dataset, in their order. *)
Theorem scatter_grows_with_range observed rows others events sel low high low' high' :
  (low' <= low)%Q → (high <= high')%Q →
  ∃ shown wider everywhere,
    (update_scatter_chart sel [low; high]
       (serve observed events (read_csv rows others))).1 = Some (scatter_figure shown)
    ∧ (update_scatter_chart sel [low'; high']
         (serve observed events (read_csv rows others))).1 = Some (scatter_figure wider)
    ∧ (update_scatter_chart "ALL" [low; high]
         (serve observed events (read_csv rows others))).1
      = Some (scatter_figure everywhere)
    ∧ shown `sublist_of` wider
    ∧ shown `sublist_of` everywhere
    ∧ wider `sublist_of` rows
    ∧ everywhere `sublist_of` rows.
Proof.
  intros Hlow Hhigh.
  rewrite !(update_scatter_chart_holds _ rows) by apply served_holds. cbn [fst].
  eexists _, _, _. do 3 (split; [reflexivity|]). unfold scatter_rows.
  repeat split; try apply sublist_filter.
  - apply filter_sublist_impl. intros r [[H1 H2] Hs]. repeat split; [lra|lra|done].
  - apply filter_sublist_impl. intros r [[H1 H2] Hs]. repeat split; [done|done|by left].
Qed.

Lemma payload_rate_figure_bucketed observed (rows : list LaunchRecord) :
  payload_rate_figure observed
    (filter (λ r, is_Some (payload_bucket (payload_mass r))) rows)
  = payload_rate_figure observed rows.
Proof.
  unfold payload_rate_figure.
  assert (bucket_keys observed
            (filter (λ r, is_Some (payload_bucket (payload_mass r))) rows)
          = bucket_keys observed rows) as ->.
  { unfold bucket_keys. destruct observed; [|done].
    apply list_filter_iff. intros c. rewrite !list_elem_of_fmap.
    split; intros (r & Hc & Hr); exists r; (split; [done|]).
    - by apply list_elem_of_filter in Hr as [_ ?].
    - apply list_elem_of_filter. split; [|done]. by rewrite <- Hc. }
  do 2 f_equal. apply list_fmap_ext. intros _ k _. f_equal.
  rewrite list_filter_filter. apply list_filter_iff. intros r.
  split; [tauto|]. intros Hk. split; [done|]. by rewrite Hk.
Qed.

(** X12: the records [pd.cut] leaves without a bucket (payload mass 0 or
    less, or above 10000) have no part in the payload chart: the chart is
    the one the dataset without these records gives. *)
Theorem payload_chart_ignores_unbucketed observed rows others others' events events'
    sel sel' :
  ∃ fig1 fig2 fig4 fig1' fig2' fig4' chart,
    (update_insight_charts observed sel
       (serve observed events (read_csv rows others))).1
    = Some (fig1, fig2, chart, fig4)
    ∧ (update_insight_charts observed sel'
         (serve observed events'
            (read_csv (filter (λ r, is_Some (payload_bucket (payload_mass r))) rows)
               others'))).1
      = Some (fig1', fig2', chart, fig4').
Proof.
  rewrite (update_insight_charts_holds _ _ rows) by apply served_holds.
  rewrite (update_insight_charts_holds _ _
    (filter (λ r, is_Some (payload_bucket (payload_mass r))) rows))
    by apply served_holds.
  unfold insight_figures. cbn [fst]. rewrite payload_rate_figure_bucketed.
  by eexists _, _, _, _, _, _, _.
Qed.

(** ** Frames that miss a column *)

Section grouping_class.
Context {K : Type} (P : K → LaunchRecord → Prop) `{!∀ k r, Decision (P k r)}.
Variables (df : DataFrame) (rows : list LaunchRecord).
Variables (key : string) (keys : Series) (ks : list K).
Hypothesis Hclass : df !! "class" = Some (IntCol (outcome <$> rows)).

Let masks : list (list bool) :=
  (λ k, (λ r, bool_decide (P k r)) <$> rows) <$> ks.

Lemma gb_count_class :
  gb_count (mkGroupBy df key keys masks) "class"
  = Some (<[key := keys]>
          {[ "class" := IntCol ((λ k, count_rows (filter (P k) rows)) <$> ks) ]}).
Proof.
  unfold gb_count. cbn [gb_frame gb_key gb_keys gb_masks].
  rewrite Hclass. cbn [mbind option_bind]. do 4 f_equal.
  unfold masks. rewrite <- list_fmap_compose. apply list_fmap_ext.
  intros _ k _. cbn. by rewrite select_fmap, length_fmap.
Qed.

Lemma gb_mean_class :
  gb_mean (mkGroupBy df key keys masks) "class"
  = Some (<[key := keys]>
          {[ "class" := NumCol ((λ k, success_rate (filter (P k) rows)) <$> ks) ]}).
Proof.
  unfold gb_mean. cbn [gb_frame gb_key gb_keys gb_masks].
  rewrite Hclass. cbn [mbind option_bind as_float]. do 4 f_equal.
  unfold masks. rewrite <- !list_fmap_compose. apply list_fmap_ext.
  intros _ k _. cbn. unfold nanmean, success_rate.
  rewrite (select_fmap (P k)). f_equal.
  apply (omap_id_Some (λ r, inject_Z (outcome r))).
Qed.

End grouping_class.

Lemma boolean_index_lookup (df : DataFrame) (P : LaunchRecord → Prop)
    `{!∀ r, Decision (P r)} rows name (f : LaunchRecord → string) :
  df !! name = Some (StrCol (f <$> rows)) →
  boolean_index df ((λ r, bool_decide (P r)) <$> rows) !! name
  = Some (StrCol (f <$> filter P rows)).
Proof.
  intros Hl. unfold boolean_index. rewrite lookup_fmap, Hl. cbn.
  by rewrite select_fmap.
Qed.

Lemma boolean_index_class (df : DataFrame) (P : LaunchRecord → Prop)
    `{!∀ r, Decision (P r)} rows :
  df !! "class" = Some (IntCol (outcome <$> rows)) →
  boolean_index df ((λ r, bool_decide (P r)) <$> rows) !! "class"
  = Some (IntCol (outcome <$> filter P rows)).
Proof.
  intros Hl. unfold boolean_index. rewrite lookup_fmap, Hl. cbn.
  by rewrite select_fmap.
Qed.

Lemma update_insight_charts_no_booster observed df rows sel :
  df !! "Launch Site" = Some (StrCol (launch_site <$> rows)) →
  df !! "Payload Mass (kg)" = Some (NumCol ((λ r, Some (payload_mass r)) <$> rows)) →
  df !! "class" = Some (IntCol (outcome <$> rows)) →
  df !! "Booster Version Category" = None →
  update_insight_charts observed sel df
  = (None, <["Payload Range" := bucket_column rows]> df).
Proof.
  intros Hs Hp Hc Hb.
  unfold update_insight_charts. run_callback.
  rewrite Hc, series_eq_int_outcome.
  rewrite (groupby_str_column _ _ (filter (λ r, outcome r = 1%Z) rows) _ launch_site)
    by by apply boolean_index_lookup.
  rewrite (gb_count_class (λ k r, launch_site r = k))
    by by apply boolean_index_class.
  rewrite px_bar_reset_index by done.
  rewrite (groupby_str_column _ _ _ _ launch_site Hs).
  rewrite (gb_mean_class (λ k r, launch_site r = k)) by done.
  rewrite px_bar_reset_index by done.
  rewrite Hp, pd_cut_payload.
  rewrite (groupby_bucket_column _ _ rows) by apply lookup_insert_eq.
  rewrite (gb_mean_class (λ k r, payload_bucket (payload_mass r) = Some k))
    by by rewrite lookup_insert_ne.
  rewrite px_bar_reset_index by done.
  unfold groupby at 1. by rewrite lookup_insert_ne, Hb.
Qed.

Lemma update_insight_charts_no_payload observed df rows sel :
  df !! "Launch Site" = Some (StrCol (launch_site <$> rows)) →
  df !! "Payload Mass (kg)" = None →
  df !! "class" = Some (IntCol (outcome <$> rows)) →
  update_insight_charts observed sel df = (None, df).
Proof.
  intros Hs Hp Hc.
  unfold update_insight_charts. run_callback.
  rewrite Hc, series_eq_int_outcome.
  rewrite (groupby_str_column _ _ (filter (λ r, outcome r = 1%Z) rows) _ launch_site)
    by by apply boolean_index_lookup.
  rewrite (gb_count_class (λ k r, launch_site r = k))
    by by apply boolean_index_class.
  rewrite px_bar_reset_index by done.
  rewrite (groupby_str_column _ _ _ _ launch_site Hs).
  rewrite (gb_mean_class (λ k r, launch_site r = k)) by done.
  rewrite px_bar_reset_index by done.
  by rewrite Hp.
Qed.

(** X11: on a file without the "Booster Version Category" column the
    insight callback raises, but only after it has written the
    "Payload Range" column into the frame; on a file without the
    "Payload Mass (kg)" column it raises before it writes, and the frame
    stays as it was. *)
Theorem insight_charts_write_before_raising observed rows others sel :
  update_insight_charts observed sel
    (delete "Booster Version Category" (read_csv rows others))
  = (None,
     <["Payload Range" := CatCol labels (payload_bucket <$> (payload_mass <$> rows))]>
       (delete "Booster Version Category" (read_csv rows others)))
  ∧ update_insight_charts observed sel
      (delete "Payload Mass (kg)" (read_csv rows others))
    = (None, delete "Payload Mass (kg)" (read_csv rows others)).
Proof.
  destruct (holds_read_csv rows others) as (Hs & Hp & Hc & Hb). split.
  - rewrite (update_insight_charts_no_booster _ _ rows);
      rewrite ?lookup_delete_eq, ?lookup_delete_ne; try done.
    unfold bucket_column. by rewrite <- list_fmap_compose.
  - apply (update_insight_charts_no_payload _ _ rows);
      by rewrite ?lookup_delete_eq, ?lookup_delete_ne.
Qed.

(** ** Points of the scatter chart, site by site *)

Lemma count_rows_by_key {A} `{EqDecision A} (f : LaunchRecord → A) ks rows :
  NoDup ks → (∀ r, r ∈ rows → f r ∈ ks) →
  Zsum ((λ k, count_rows (filter (λ r, f r = k) rows)) <$> ks) = count_rows rows.
Proof.
  intros Hnd Hcover.
  rewrite (list_fmap_ext _
    (λ k, Zsum (select ((λ x, bool_decide (x = k)) <$> (f <$> rows))
                  ((λ _, 1%Z) <$> rows))) ks).
  2:{ intros _ k _. by rewrite slice_value, Zsum_ones. }
  rewrite Zsum_groups; [apply Zsum_ones|done| |by rewrite !length_fmap].
  intros x Hx. apply list_elem_of_fmap in Hx as (r & -> & Hr). by apply Hcover.
Qed.

Lemma figure_points_scatter rows :
  figure_points (scatter_figure rows) = length rows.
Proof. unfold scatter_figure. cbn. by rewrite length_fmap. Qed.

(** X13: when no site is called "ALL", the points of the scatter chart for
    "ALL" are shared out among the sites of the dropdown: for one payload
    range, the numbers of points of the charts of the sites add up to the
    number of points of the chart for "ALL". *)
Theorem scatter_points_split_by_site observed rows others events low high sites :
  launch_sites (read_csv rows others) = Some sites →
  "ALL" ∉ sites →
  ∃ everywhere,
    (update_scatter_chart "ALL" [low; high]
       (serve observed events (read_csv rows others))).1 = Some everywhere
    ∧ Zsum ((λ s, Z.of_nat
                    (default 0%nat
                       (figure_points <$>
                        (update_scatter_chart s [low; high]
                           (serve observed events (read_csv rows others))).1)))
              <$> sites)
      = Z.of_nat (figure_points everywhere).
Proof.
  rewrite launch_sites_read_csv. intros [= <-] Hall.
  rewrite (update_scatter_chart_holds _ rows) by apply served_holds. cbn [fst].
  eexists. split; [reflexivity|]. rewrite figure_points_scatter.
  set (inside := filter (λ r, (low <= payload_mass r)%Q ∧ (payload_mass r <= high)%Q)
                   rows).
  assert (scatter_rows "ALL" low high rows = inside) as ->.
  { unfold scatter_rows, inside. apply list_filter_iff. intros r.
    split; [tauto|]. intros ?. split; [done|by left]. }
  change (Z.of_nat (length inside)) with (count_rows inside).
  rewrite <- (count_rows_by_key launch_site (unique (launch_site <$> rows)) inside).
  - apply (f_equal Zsum). apply list_fmap_ext. intros i s Hs.
    apply list_elem_of_lookup_2 in Hs.
    rewrite (update_scatter_chart_holds _ rows) by apply served_holds. cbn.
    rewrite length_fmap. unfold count_rows. do 2 f_equal.
    unfold scatter_rows, inside. rewrite list_filter_filter.
    apply list_filter_iff. intros r. split.
    + intros [? [->|?]]; [contradiction|by split].
    + intros [? ?]. split; [done|by right].
  - apply NoDup_unique.
  - intros r Hr. apply elem_of_unique, list_elem_of_fmap_2.
    unfold inside in Hr. by apply list_elem_of_filter in Hr as [_ ?].
Qed.

(** ** Charts that show the same numbers *)

(** X14: with outcomes 0 or 1, the pie chart for "ALL" and the
    success-count bar chart agree: a site whose slice has a positive value
    has a bar of that height, and a site whose slice is 0 has no bar. *)
Theorem pie_agrees_with_success_bars observed rows others events events' sel :
  binary rows →
  ∃ fig slices ks ns fig2 fig3 fig4,
    (update_pie_chart "ALL" (serve observed events (read_csv rows others))).1 = Some fig
    ∧ pie_slices fig = Some slices
    ∧ (update_insight_charts observed sel
         (serve observed events' (read_csv rows others))).1
      = Some (Bar (StrCol ks) (IntCol ns) "Successful Launches by Site",
              fig2, fig3, fig4)
    ∧ ∀ s n, (LStr s, n) ∈ slices →
        (list_to_map (zip ks ns) : gmap string Z) !! s
        = if decide (0 < n)%Z then Some n else None.
Proof.
  intros Hb.
  rewrite (update_pie_chart_holds _ rows) by apply served_holds.
  rewrite (update_insight_charts_holds _ _ rows) by apply served_holds.
  unfold insight_figures, site_success_figure. cbn [fst].
  eexists _, _, _, _, _, _, _. split; [reflexivity|].
  split; [apply pie_slices_all|]. split; [reflexivity|].
  intros s n [_ ->]%elem_of_slices_by.
  rewrite Zsum_binary by by apply binary_filter.
  rewrite successes_at_label.
  rewrite lookup_zip_fmap by apply NoDup_sorted_keys.
  unfold successes. rewrite list_filter_filter.
  destruct (decide (s ∈ _)) as [Hs|Hs];
    rewrite elem_of_sorted_keys, list_elem_of_fmap in Hs.
  - rewrite decide_True; [done|]. apply count_rows_pos.
    destruct Hs as (r & -> & Hr). apply list_elem_of_filter in Hr as [Ho Hr].
    by exists r.
  - rewrite decide_False; [done|]. rewrite count_rows_pos.
    intros (r & Hr & <- & Ho). apply Hs. exists r. split; [done|].
    by apply list_elem_of_filter.
Qed.

(** ** The frame after the first insight callback *)

(** X15: once the insight callback has run, the frame is settled: it is the
    loaded frame with the "Payload Range" column written, and no callback
    that runs afterwards changes it. *)
Theorem frame_settles_after_insights observed rows others events events' sel :
  (fire observed (InsightCharts sel)
     (serve observed events (read_csv rows others))).2
  = <["Payload Range" := CatCol labels (payload_bucket <$> (payload_mass <$> rows))]>
      (read_csv rows others)
  ∧ serve observed events'
      (fire observed (InsightCharts sel)
         (serve observed events (read_csv rows others))).2
    = (fire observed (InsightCharts sel)
         (serve observed events (read_csv rows others))).2.
Proof.
  rewrite (fire_holds _ _ _ rows) by apply served_holds. cbn [snd].
  assert (<["Payload Range" := bucket_column rows]>
            (serve observed events (read_csv rows others))
          = <["Payload Range" := bucket_column rows]> (read_csv rows others)) as ->.
  { destruct (serve_state observed events _ _ (holds_read_csv rows others))
      as [->| ->]; by rewrite ?insert_insert_eq. }
  split.
  - unfold bucket_column. by rewrite <- list_fmap_compose.
  - destruct (serve_state observed events' _ rows
                (holds_insert _ _ (bucket_column rows) (holds_read_csv rows others)))
      as [->| ->]; by rewrite ?insert_insert_eq.
Qed.

(** ** Witnesses of the further properties *)

Lemma offered_site_has_records_witness :
  dropdown_options (read_csv scenario ∅)
  = Some (("All Sites", "ALL") :: [("A", "A"); ("B", "B")])
  ∧ ("B", "B") ∈ [("A", "A"); ("B", "B")]
  ∧ "B" ≠ "ALL"
  ∧ ∃ fig slices,
      (update_pie_chart "B" (serve false [] (read_csv scenario ∅))).1 = Some fig
      ∧ pie_slices fig = Some slices
      ∧ Zsum slices.*2 = count_rows (filter (λ r, launch_site r = "B") scenario)
      ∧ (1 <= Zsum slices.*2)%Z.
Proof.
  assert (dropdown_options (read_csv scenario ∅)
          = Some (("All Sites", "ALL") :: [("A", "A"); ("B", "B")])) as H1
    by (vm_compute; reflexivity).
  assert (("B", "B") ∈ [("A", "A"); ("B", "B")]) as H2
    by (apply (bool_decide_unpack _); vm_compute; exact I).
  assert ("B" ≠ "ALL") as H3 by discriminate.
  split; [exact H1|]. split; [exact H2|]. split; [exact H3|].
  exact (offered_site_has_records false scenario ∅ [] _ "B" "B" H1 H2 H3).
Defined.


Lemma absent_site_gives_empty_charts_witness :
  "C" ≠ "ALL"
  ∧ (∀ r, r ∈ scenario → launch_site r ≠ "C")
  ∧ (update_pie_chart "C" (serve false [] (read_csv scenario ∅))).1
    = Some (Pie (IntCol []) None ("Success vs Failure for site " +:+ "C"))
  ∧ pie_slices (Pie (IntCol []) None ("Success vs Failure for site " +:+ "C")) = Some []
  ∧ (update_scatter_chart "C" [0; 10000]%Q
       (serve false [] (read_csv scenario ∅))).1
    = Some (Scatter (NumCol []) (IntCol []) (StrCol []) "Payload vs Launch Outcome").
Proof.
  assert ("C" ≠ "ALL") as H1 by discriminate.
  assert (∀ r, r ∈ scenario → launch_site r ≠ "C") as H2.
  { apply Forall_forall. apply (bool_decide_unpack _). vm_compute. exact I. }
  split; [exact H1|]. split; [exact H2|].
  exact (absent_site_gives_empty_charts false scenario ∅ [] "C" 0 10000 H1 H2).
Defined.

Lemma site_rate_is_share_of_successes_witness :
  binary scenario
  ∧ ∃ ks ns ks' ys fig3 fig4,
      (update_insight_charts false "ALL" (serve false [] (read_csv scenario ∅))).1
      = Some (Bar (StrCol ks) (IntCol ns) "Successful Launches by Site",
              Bar (StrCol ks') (NumCol ys) "Launch Success Rate by Site",
              fig3, fig4)
      ∧ ∃ v, (list_to_map (zip ks' ys) : gmap string (option Q)) !! "A" = Some (Some v)
             ∧ (v == inject_Z 1 / inject_Z 2)%Q.
Proof.
  split; [exact binary_scenario|].
  destruct (site_rate_is_share_of_successes false scenario ∅ [] "ALL" binary_scenario)
    as (ks & ns & ks' & ys & fig3 & fig4 & Hfig & Hsites).
  exists ks, ns, ks', ys, fig3, fig4. split; [exact Hfig|].
  destruct (Hsites "A") as (v & Hv & Hshare & _).
  { apply (bool_decide_unpack _). vm_compute. exact I. }
  exists v. split; [exact Hv|]. exact Hshare.
Defined.

Lemma scatter_grows_with_range_witness :
  (0 <= 2000)%Q ∧ (5000 <= 10000)%Q
  ∧ ∃ shown wider everywhere,
      (update_scatter_chart "A" [2000; 5000]%Q
         (serve false [] (read_csv scenario ∅))).1 = Some (scatter_figure shown)
      ∧ (update_scatter_chart "A" [0; 10000]%Q
           (serve false [] (read_csv scenario ∅))).1 = Some (scatter_figure wider)
      ∧ (update_scatter_chart "ALL" [2000; 5000]%Q
           (serve false [] (read_csv scenario ∅))).1
        = Some (scatter_figure everywhere)
      ∧ shown `sublist_of` wider
      ∧ shown `sublist_of` everywhere
      ∧ wider `sublist_of` scenario
      ∧ everywhere `sublist_of` scenario.
Proof.
  assert (0 <= 2000)%Q as H1 by (vm_compute; discriminate).
  assert (5000 <= 10000)%Q as H2 by (vm_compute; discriminate).
  split; [exact H1|]. split; [exact H2|].
  exact (scatter_grows_with_range false scenario ∅ [] "A" 2000 5000 0 10000 H1 H2).
Defined.

Lemma scatter_points_split_by_site_witness :
  launch_sites (read_csv scenario ∅) = Some ["A"; "B"]
  ∧ ("ALL" ∉ ["A"; "B"])
  ∧ ∃ everywhere,
      (update_scatter_chart "ALL" [0; 10000]%Q
         (serve false [] (read_csv scenario ∅))).1 = Some everywhere
      ∧ Zsum ((λ s, Z.of_nat
                      (default 0%nat
                         (figure_points <$>
                          (update_scatter_chart s [0; 10000]%Q
                             (serve false [] (read_csv scenario ∅))).1)))
                <$> ["A"; "B"])
        = Z.of_nat (figure_points everywhere).
Proof.
  assert (launch_sites (read_csv scenario ∅) = Some ["A"; "B"]) as H1
    by (vm_compute; reflexivity).
  assert ("ALL" ∉ ["A"; "B"]) as H2
    by (apply (bool_decide_unpack _); vm_compute; exact I).
  split; [exact H1|]. split; [exact H2|].
  exact (scatter_points_split_by_site false scenario ∅ [] 0 10000 _ H1 H2).
Defined.

Lemma pie_agrees_with_success_bars_witness :
  binary scenario
  ∧ ∃ fig slices ks ns fig2 fig3 fig4,
      (update_pie_chart "ALL" (serve false [] (read_csv scenario ∅))).1 = Some fig
      ∧ pie_slices fig = Some slices
      ∧ (update_insight_charts false "ALL"
           (serve false [] (read_csv scenario ∅))).1
        = Some (Bar (StrCol ks) (IntCol ns) "Successful Launches by Site",
                fig2, fig3, fig4)
      ∧ ∀ s n, (LStr s, n) ∈ slices →
          (list_to_map (zip ks ns) : gmap string Z) !! s
          = if decide (0 < n)%Z then Some n else None.
Proof.
  split; [exact binary_scenario|].
  exact (pie_agrees_with_success_bars false scenario ∅ [] [] "ALL" binary_scenario).
Defined.
